(** * Meeting-notes summarizer: a shallow embedding of [lambda_function.py]

    The Lambda handler decodes a base64 MIME payload, extracts its plain
    text, asks a completion service for a summary and for a file name, and
    stores the summary under a date-partitioned key.

    Conventions of the embedding:
    - Python [str] is a Rocq [string], one character per code point (the
      model is restricted to code points below 256); [bytes] is a list of
      [byte];
    - dynamically typed values ([Any]) are the inductive [PyVal];
      dictionaries are [gmap string _];
    - a computation that may raise returns an [Outcome]; a computation that
      also talks to the outside world (the completion service, the object
      store, the clock, the console) is a state-and-exception computation
      [M] over a [World];
    - functions of Python's standard library that the handler calls but
      does not define ([message_from_bytes], [bytes.decode], [repr]) are
      fields of a [PyLib] record that every definition takes as a
      parameter; [b64decode] and [json.dumps] are small enough to be
      modelled in full;
    - what runs once at import (the construction of the clients and the
      provisioning of the bucket by [S3BucketManager.__init__]) is outside
      the embedding, which starts at [lambda_handler]. *)

From Stdlib Require Import ZArith QArith Lia.
From Stdlib.Strings Require Import Ascii String Byte.
From Stdlib Require Import DecimalString DecimalZ.
From stdpp Require Import base option list gmap strings.

Set Warnings "-register-all".
Open Scope string_scope.
Open Scope Z_scope.

(** ** Exceptions and outcomes *)

(** An exception instance: its class name and [str(e)]. Only subclasses of
    [Exception] are modelled, which is what [except Exception] catches. *)
Record Exn := mkExn { exn_class : string; exn_str : string }.

Inductive Outcome (A : Type) : Type :=
| Ok (a : A)
| Raise (e : Exn).
Arguments Ok {A} a.
Arguments Raise {A} e.

#[export] Instance Outcome_ret : MRet Outcome := @Ok.
#[export] Instance Outcome_bind : MBind Outcome := fun A B f m =>
  match m with
  | Ok a => f a
  | Raise e => Raise e
  end.

Definition is_ok {A} (o : Outcome A) : bool :=
  match o with Ok _ => true | Raise _ => false end.

(** ** Dynamically typed values *)

Inductive PyVal : Type :=
| PNone
| PBool (b : bool)
| PInt (z : Z)
| PStr (s : string)
| PBytes (bs : list byte)
| PList (l : list PyVal)
| PDict (d : gmap string PyVal).

(** [type(v).__name__] *)
Definition type_name (v : PyVal) : string :=
  match v with
  | PNone => "NoneType"
  | PBool _ => "bool"
  | PInt _ => "int"
  | PStr _ => "str"
  | PBytes _ => "bytes"
  | PList _ => "list"
  | PDict _ => "dict"
  end.

(** ** Text helpers *)

Definition dquote : string := String (ascii_of_nat 34) "".
Definition newline : string := String (ascii_of_nat 10) "".
Definition squote : string := "'".

(** [str(n)] for an [int]: decimal, a leading minus sign for negatives, no
    padding. *)
Definition str_of_int (z : Z) : string := NilZero.string_of_int (Z.to_int z).

(** [str.isspace] on one character (code points below 256). *)
Definition isspace (c : ascii) : bool :=
  let n := Z.of_nat (nat_of_ascii c) in
  ((9 <=? n) && (n <=? 13)) || ((28 <=? n) && (n <=? 32)) || (n =? 133) || (n =? 160).

Fixpoint lstrip (s : string) : string :=
  match s with
  | EmptyString => EmptyString
  | String c s' => if isspace c then lstrip s' else s
  end.

Fixpoint rstrip (s : string) : string :=
  match s with
  | EmptyString => EmptyString
  | String c s' =>
      match rstrip s' with
      | EmptyString => if isspace c then EmptyString else String c EmptyString
      | r => String c r
      end
  end.

(** [str.strip()] with no argument. *)
Definition strip (s : string) : string := rstrip (lstrip s).

Definition str_nonempty (s : string) : bool :=
  match s with EmptyString => false | _ => true end.

(** ** [json.dumps] of the error envelope

    [json.dumps] with its defaults ([ensure_ascii=True]) writes a string
    between double quotes, escapes the backslash, the double quote and the
    control characters, and writes every other character outside
    [' '..'~'] as a [\uXXXX] escape. *)

Definition hex_digit (n : Z) : ascii :=
  if n <? 10 then ascii_of_nat (Z.to_nat (48 + n))
  else ascii_of_nat (Z.to_nat (87 + n)).

Definition json_u_escape (n : Z) : string :=
  "\u" ++ String (hex_digit (Z.shiftr n 12 mod 16))
         (String (hex_digit (Z.shiftr n 8 mod 16))
         (String (hex_digit (Z.shiftr n 4 mod 16))
         (String (hex_digit (n mod 16)) ""))).

Definition json_escape_char (c : ascii) : string :=
  let n := Z.of_nat (nat_of_ascii c) in
  if n =? 92 then "\\"
  else if n =? 34 then "\" ++ dquote
  else if n =? 8 then "\b"
  else if n =? 12 then "\f"
  else if n =? 10 then "\n"
  else if n =? 13 then "\r"
  else if n =? 9 then "\t"
  else if (32 <=? n) && (n <=? 126) then String c ""
  else json_u_escape n.

Fixpoint json_escape (s : string) : string :=
  match s with
  | EmptyString => EmptyString
  | String c s' => json_escape_char c ++ json_escape s'
  end.

Definition json_string (s : string) : string := dquote ++ json_escape s ++ dquote.

(** [json.dumps({'error': msg})] *)
Definition json_dumps_error (msg : string) : string :=
  "{" ++ json_string "error" ++ ": " ++ json_string msg ++ "}".

(** ** [base64.b64decode]

    [b64decode(s)] with its defaults turns [s] into bytes and hands them to
    [binascii.a2b_base64] in its lenient mode: characters outside the
    alphabet are skipped, a complete pad sequence stops the scan, and an
    incomplete last quad is an error. *)

Definition ValueError (msg : string) : Exn := mkExn "ValueError" msg.
Definition TypeError (msg : string) : Exn := mkExn "TypeError" msg.
Definition AttributeError (msg : string) : Exn := mkExn "AttributeError" msg.
Definition KeyError (key : string) : Exn := mkExn "KeyError" (squote ++ key ++ squote).
Definition binascii_Error (msg : string) : Exn := mkExn "binascii.Error" msg.

Definition Z_of_byte (b : byte) : Z := Z.of_N (Byte.to_N b).

Definition byte_of_Z (z : Z) : byte :=
  match Byte.of_N (Z.to_N (z mod 256)) with
  | Some b => b
  | None => x00
  end.

Definition table_a2b_base64 (c : Z) : Z :=
  if (65 <=? c) && (c <=? 90) then c - 65
  else if (97 <=? c) && (c <=? 122) then c - 71
  else if (48 <=? c) && (c <=? 57) then c + 4
  else if c =? 43 then 62
  else if c =? 47 then 63
  else 255.

Definition BASE64_PAD : Z := 61.

Fixpoint a2b_base64_loop (ascii_data : list byte) (quad_pos leftchar pads : Z)
    (bin_data : list byte) : Outcome (list byte) :=
  match ascii_data with
  | [] =>
      if quad_pos =? 0 then Ok bin_data
      else if quad_pos =? 1 then
        Raise (binascii_Error
          ("Invalid base64-encoded string: number of data characters ("
           ++ str_of_int (Z.of_nat (length bin_data) / 3 * 4 + 1)
           ++ ") cannot be 1 more than a multiple of 4"))
      else Raise (binascii_Error "Incorrect padding")
  | ch :: rest =>
      let this_ch := Z_of_byte ch in
      if this_ch =? BASE64_PAD then
        if 2 <=? quad_pos then
          if 4 <=? quad_pos + (pads + 1) then Ok bin_data
          else a2b_base64_loop rest quad_pos leftchar (pads + 1) bin_data
        else a2b_base64_loop rest quad_pos leftchar pads bin_data
      else
        let this_ch := table_a2b_base64 this_ch in
        if 64 <=? this_ch then a2b_base64_loop rest quad_pos leftchar pads bin_data
        else if quad_pos =? 0 then
          a2b_base64_loop rest 1 this_ch 0 bin_data
        else if quad_pos =? 1 then
          a2b_base64_loop rest 2 (Z.land this_ch 15) 0
            (bin_data ++ [byte_of_Z (Z.lor (Z.shiftl leftchar 2) (Z.shiftr this_ch 4))])
        else if quad_pos =? 2 then
          a2b_base64_loop rest 3 (Z.land this_ch 3) 0
            (bin_data ++ [byte_of_Z (Z.lor (Z.shiftl leftchar 4) (Z.shiftr this_ch 2))])
        else
          a2b_base64_loop rest 0 0 0
            (bin_data ++ [byte_of_Z (Z.lor (Z.shiftl leftchar 6) this_ch)])
  end.

Definition a2b_base64 (data : list byte) : Outcome (list byte) :=
  a2b_base64_loop data 0 0 0 [].

Definition is_ascii_byte (b : byte) : bool := Z_of_byte b <? 128.

(** [_bytes_from_decode_data] *)
Definition bytes_from_decode_data (s : PyVal) : Outcome (list byte) :=
  match s with
  | PStr s =>
      if forallb is_ascii_byte (list_byte_of_string s)
      then Ok (list_byte_of_string s)
      else Raise (ValueError "string argument should contain only ASCII characters")
  | PBytes b => Ok b
  | _ =>
      Raise (TypeError ("argument should be a bytes-like object or ASCII string, not '"
                        ++ type_name s ++ "'"))
  end.

Definition b64decode (s : PyVal) : Outcome (list byte) :=
  data ← bytes_from_decode_data s; a2b_base64 data.

(** ** Parsed MIME messages

    An [email.message.Message] as the handler observes it. A [Part] holds a
    string payload; its [payload] field is what [get_payload(decode=True)]
    returns (the body after its transfer encoding is undone). A [Multipart]
    holds a list of sub-messages. [content_type] is the answer of
    [get_content_type()] and [content_charset] that of
    [get_content_charset()]. *)

Inductive Message : Type :=
| Part (content_type : string) (content_charset : option string) (payload : list byte)
| Multipart (content_type : string) (content_charset : option string)
    (subparts : list Message).

Definition is_multipart (m : Message) : bool :=
  match m with Part _ _ _ => false | Multipart _ _ _ => true end.

Definition get_content_type (m : Message) : string :=
  match m with Part ct _ _ => ct | Multipart ct _ _ => ct end.

Definition get_content_charset (m : Message) : option string :=
  match m with Part _ cs _ => cs | Multipart _ cs _ => cs end.

(** [get_payload(decode=True)]: [None] on a multipart message. *)
Definition get_payload_decoded (m : Message) : option (list byte) :=
  match m with Part _ _ p => Some p | Multipart _ _ _ => None end.

(** [Message.walk()]: the message itself, then each sub-message's walk. *)
Fixpoint walk (m : Message) : list Message :=
  m :: match m with
       | Part _ _ _ => []
       | Multipart _ _ subparts => flat_map walk subparts
       end.

(** The standard-library functions the handler relies on. *)
Record PyLib := {
  (** [email.message_from_bytes]; the parser records defects and never raises *)
  message_from_bytes : list byte -> Message;
  (** [payload.decode(encoding)] *)
  bytes_decode : list byte -> string -> Outcome string;
  (** [repr(v)], which is [str(v)] for every value that is not a [str] *)
  repr : PyVal -> string;
}.

(** ** The outside world *)

Record datetime := { year : Z; month : Z; day : Z }.

Record ConverseRequest := {
  modelId : string;
  system : list string;
  messages : list PyVal;
  maxTokens : Z;
  temperature : Q;
}.

(** [ConverseResponseTypeDef]: the [output] entry is always there, its
    [message] entry need not be. *)
Record ConverseResponse := { output : gmap string PyVal }.

Inductive ConsoleLine : Type :=
| Printed (line : string)
| Traceback (e : Exn).

Record World := mkWorld {
  (** answer of the completion service to its n-th call *)
  bedrock_converse : nat -> ConverseRequest -> Outcome ConverseResponse;
  bedrock_calls : nat;
  (** verdict of the object store on a put: [None] accepts it *)
  s3_put_object : string -> string -> string -> option Exn;
  (** accepted puts, oldest first: bucket, key, body *)
  s3_objects : list (string * string * string);
  clock : datetime;
  console : list ConsoleLine;
}.

Definition M (A : Type) : Type := World -> Outcome A * World.

#[export] Instance M_ret : MRet M := fun A a w => (Ok a, w).
#[export] Instance M_bind : MBind M := fun A B f m w =>
  match m w with
  | (Ok a, w') => f a w'
  | (Raise e, w') => (Raise e, w')
  end.

Definition lift {A} (o : Outcome A) : M A := fun w => (o, w).

(** [try: body except Exception as e: handler e] *)
Definition try_except {A} (body : M A) (handler : Exn -> M A) : M A := fun w =>
  match body w with
  | (Ok a, w') => (Ok a, w')
  | (Raise e, w') => handler e w'
  end.

Definition print (line : string) : M unit := fun w =>
  (Ok tt, mkWorld (bedrock_converse w) (bedrock_calls w) (s3_put_object w)
            (s3_objects w) (clock w) (console w ++ [Printed line])).

Definition print_exc (e : Exn) : M unit := fun w =>
  (Ok tt, mkWorld (bedrock_converse w) (bedrock_calls w) (s3_put_object w)
            (s3_objects w) (clock w) (console w ++ [Traceback e])).

Definition datetime_now : M datetime := fun w => (Ok (clock w), w).

Definition converse (request : ConverseRequest) : M ConverseResponse := fun w =>
  (bedrock_converse w (bedrock_calls w) request,
   mkWorld (bedrock_converse w) (S (bedrock_calls w)) (s3_put_object w)
     (s3_objects w) (clock w) (console w)).

Definition put_object (Bucket Key Body : string) : M unit := fun w =>
  match s3_put_object w Bucket Key Body with
  | Some e => (Raise e, w)
  | None =>
      (Ok tt, mkWorld (bedrock_converse w) (bedrock_calls w) (s3_put_object w)
                (s3_objects w ++ [(Bucket, Key, Body)]) (clock w) (console w))
  end.

(** ** The program *)

Definition PARAM_REGION : string := "eu-north-1".
Definition PROMPT_SECTION_SEPARATOR : string := newline ++ "###" ++ newline.
Definition SUMMARIZER_MODEL_ID : string := "deepseek.v3-v1:0".
Definition PARAM_TRANSCRIPT : string := "body".
Definition bucket_name : string := "meeting-notes-summaries-bucket".

Definition SUMMARY_FALLBACK : string :=
  "An error occurred while summarizing the meeting notes.".
Definition FILE_NAME_FALLBACK : string := "meeting-notes-summary.txt".

Record Response := { statusCode : Z; body : string }.

(** [{ "role": "user", "content": [ { "text": prompt } ] }] *)
Definition user_turn (prompt : string) : PyVal :=
  PDict (<["role" := PStr "user"]>
          (<["content" := PList [PDict {["text" := PStr prompt]}]]> ∅)).

(** [S3BucketManager.upload] on the process-wide manager *)
Definition upload (key summarized_note : string) : M unit :=
  put_object bucket_name key summarized_note.

(** The key built inline by [lambda_handler]:
    [f"{now.year}/{now.month}/{now.day}/{file_name}"] *)
Definition s3_key (now : datetime) (file_name : string) : string :=
  str_of_int (year now) ++ "/" ++ str_of_int (month now) ++ "/"
  ++ str_of_int (day now) ++ "/" ++ file_name.

(** [_validate_input] *)
Definition _validate_input (body_data : gmap string PyVal) : option Response :=
  match body_data !! PARAM_TRANSCRIPT with
  | None =>
      Some {| statusCode := 400;
              body := json_dumps_error ("Missing required parameter: " ++ PARAM_TRANSCRIPT) |}
  | Some _ => None
  end.

(** [d[key]] *)
Definition getitem (d : gmap string PyVal) (key : string) : Outcome PyVal :=
  match d !! key with
  | Some v => Ok v
  | None => Raise (KeyError key)
  end.

Section Program.
Context (lib : PyLib).

(** [str(v)] *)
Definition py_str (v : PyVal) : string :=
  match v with
  | PStr s => s
  | _ => repr lib v
  end.

(** [NotesSummarizer.__extract_text_from_part] *)
Definition __extract_text_from_part (part : Message) : Outcome string :=
  let content_type := get_content_type part in
  if String.eqb content_type "text/plain" then
    match get_payload_decoded part with
    | Some payload =>
        bytes_decode lib payload
          (match get_content_charset part with
           | Some cs => if str_nonempty cs then cs else "utf-8"
           | None => "utf-8"
           end)
    | None => Raise (AttributeError "'NoneType' object has no attribute 'decode'")
    end
  else Ok "".

(** The loop [for part in ...: text += __extract_text_from_part(part)] *)
Fixpoint extract_loop (parts : list Message) (text : string) : Outcome string :=
  match parts with
  | [] => Ok text
  | part :: rest =>
      t ← __extract_text_from_part part;
      extract_loop rest (text ++ t)
  end.

(** [NotesSummarizer._extract_text_from_multidata] *)
Definition _extract_text_from_multidata (multidata : list byte) : Outcome string :=
  let message := message_from_bytes lib multidata in
  text ← (if is_multipart message
          then extract_loop (walk message) ""
          else t ← __extract_text_from_part message; Ok ("" ++ t));
  Ok (if str_nonempty text then strip text else "").

(** [message.get("content", [])] *)
Definition get_content (message : PyVal) : Outcome PyVal :=
  match message with
  | PDict d => Ok (default (PList []) (d !! "content"))
  | _ => Raise (AttributeError
                  (squote ++ type_name message ++ "' object has no attribute 'get'"))
  end.

(** Iteration over a value. A dictionary yields its keys; their order is
    immaterial below, where every key, being a [str], is skipped. *)
Definition py_iter (v : PyVal) : Outcome (list PyVal) :=
  match v with
  | PList l => Ok l
  | PStr s => Ok ((fun c => PStr (String c "")) <$> list_ascii_of_string s)
  | PBytes bs => Ok ((fun b => PInt (Z_of_byte b)) <$> bs)
  | PDict d => Ok ((fun kv => PStr kv.1) <$> map_to_list d)
  | _ => Raise (TypeError (squote ++ type_name v ++ "' object is not iterable"))
  end.

(** [next((str(b["text"]) for b in content
          if isinstance(b, dict) and "text" in b), "")] *)
Fixpoint first_text (content : list PyVal) : string :=
  match content with
  | [] => ""
  | b :: rest =>
      match b with
      | PDict d =>
          match d !! "text" with
          | Some t => py_str t
          | None => first_text rest
          end
      | _ => first_text rest
      end
  end.

(** [NotesSummarizer._extract_text] *)
Definition _extract_text (message : PyVal) : Outcome string :=
  content ← get_content message;
  blocks ← py_iter content;
  Ok (first_text blocks).

(** The arguments [_call_bedrock] passes to [converse] *)
Definition converse_request (messages : list PyVal) : ConverseRequest :=
  {| modelId := SUMMARIZER_MODEL_ID;
     system := ["You are a helpful secretary who excels at summarizing various notes. Be clear and concise."];
     messages := messages;
     maxTokens := 1024;
     temperature := (2 # 10)%Q |}.

(** [NotesSummarizer._call_bedrock] *)
Definition _call_bedrock (messages : list PyVal) : M ConverseResponse :=
  converse (converse_request messages).

(** [response["output"].get("message")]: [None] when the entry is absent
    or holds [None]. *)
Definition output_message (response : ConverseResponse) : option PyVal :=
  match output response !! "message" with
  | Some PNone => None
  | Some message => Some message
  | None => None
  end.

(** [NotesSummarizer._get_bedrock_response_and_append]. The conversation
    is a list that the callee mutates in place: the embedding threads it
    like the world and returns its contents after the call, whatever the
    outcome. *)
Definition _get_bedrock_response_and_append (conversation : list PyVal) (w : World)
    : Outcome PyVal * list PyVal * World :=
  match _call_bedrock conversation w with
  | (Raise e, w') => (Raise e, conversation, w')
  | (Ok response, w') =>
      match output_message response with
      | None =>
          (Raise (ValueError "Bedrock response did not contain a message in output"),
           conversation, w')
      | Some message => (Ok message, (conversation ++ [message])%list, w')
      end
  end.

(** A call that mutates a list local to the caller, which the caller does
    not read again. *)
Definition on_local {A} (conversation : list PyVal)
    (call : list PyVal -> World -> Outcome A * list PyVal * World) : M A :=
  fun w => let '(r, _, w') := call conversation w in (r, w').

Definition file_name_prompt (notes : string) : string :=
  "Based on the following meeting notes, suggest a concise and descriptive file name for the summary." ++ newline
  ++ "The file name should be in lowercase, use hyphens instead of spaces, and end with .txt. "
  ++ "Avoid using special characters or punctuation other than hyphens." ++ newline
  ++ "Respond with only the file name, without any additional text or explanation." ++ newline
  ++ "Example 1:" ++ newline
  ++ "Meeting Notes: 'Discussed project timeline and assigned tasks to team members.'" ++ newline
  ++ "Suggested File Name: project-timeline-and-tasks-summary.txt" ++ newline
  ++ "Example 2:" ++ newline
  ++ "Meeting Notes: 'Reviewed quarterly financial results and planned budget adjustments.'" ++ newline
  ++ "Suggested File Name: quarterly-financial-results-and-budget-planning-summary.txt" ++ newline ++ newline
  ++ "Meeting Notes: '" ++ notes ++ "'" ++ newline
  ++ "Suggested File Name: ".

(** [NotesSummarizer.infer_meeting_notes_file_name] *)
Definition infer_meeting_notes_file_name (notes : string) : M string :=
  let prompt := file_name_prompt notes in
  let messages : list PyVal := [] in
  let messages := (messages ++ [user_turn prompt])%list in
  try_except
    (response_message ← on_local messages _get_bedrock_response_and_append;
     file_name ← lift (_extract_text response_message);
     mret file_name)
    (fun e =>
       print ("Error during Bedrock call for file name inference: " ++ exn_str e);;
       print_exc e;;
       mret FILE_NAME_FALLBACK).

Definition summarization_prompt (text : string) : string :=
  "Please provide a concise summary of the following meeting notes, highlighting key points and action items:"
  ++ PROMPT_SECTION_SEPARATOR ++ text ++ PROMPT_SECTION_SEPARATOR.

(** [NotesSummarizer.summarize_meeting_notes] *)
Definition summarize_meeting_notes (notes : list byte) : M string :=
  text ← lift (_extract_text_from_multidata notes);
  let meeting_notes_summarization_prompt := summarization_prompt text in
  let messages : list PyVal := [] in
  let messages := (messages ++ [user_turn meeting_notes_summarization_prompt])%list in
  try_except
    (response_message ← on_local messages _get_bedrock_response_and_append;
     summary ← lift (_extract_text response_message);
     mret summary)
    (fun e =>
       print ("Error during Bedrock call: " ++ exn_str e);;
       print_exc e;;
       mret SUMMARY_FALLBACK).

(** The [try] suite of [lambda_handler] *)
Definition lambda_handler_try (event : gmap string PyVal) : M Response :=
  match _validate_input event with
  | Some validation_error => mret validation_error
  | None =>
      transcript ← lift (getitem event PARAM_TRANSCRIPT);
      message ← lift (b64decode transcript);
      match message with
      | [] =>
          mret {| statusCode := 400;
                  body := json_dumps_error "Transcript content is empty" |}
      | _ =>
          summarized_note ← summarize_meeting_notes message;
          file_name ← infer_meeting_notes_file_name summarized_note;
          now ← datetime_now;
          upload (s3_key now file_name) summarized_note;;
          mret {| statusCode := 200; body := summarized_note |}
      end
  end.

(** [lambda_handler] *)
Definition lambda_handler (event : gmap string PyVal) : M Response :=
  try_except (lambda_handler_try event)
    (fun e =>
       print ("Error in lambda_handler: " ++ exn_str e);;
       print_exc e;;
       mret {| statusCode := 500; body := json_dumps_error (exn_str e) |}).

End Program.

(** ** Properties named by the specification *)

(** The error of a reply without a message (the specification's
    [NoReplyError]). *)
Definition NoReplyError : Exn :=
  ValueError "Bedrock response did not contain a message in output".

(** The completion service fails on every call. *)
Definition every_call_raises (w : World) : Prop :=
  forall n request, exists e, bedrock_converse w n request = Raise e.

(** The response carries a message. *)
Definition has_message (response : ConverseResponse) : Prop :=
  exists message, output response !! "message" = Some message /\ message <> PNone.

(** A content block that carries a [text] field. *)
Definition carries_text (b : PyVal) : Prop :=
  match b with
  | PDict d => is_Some (d !! "text")
  | _ => False
  end.

(** What the parser guarantees of a message that holds sub-messages: its
    content type is [multipart/*] or [message/*], hence not [text/plain]. *)
Fixpoint parser_shaped (m : Message) : bool :=
  match m with
  | Part _ _ _ => true
  | Multipart ct _ subparts =>
      negb (String.eqb ct "text/plain") && forallb parser_shaped subparts
  end.

(** Calendar fields of a [datetime]. *)
Definition valid_date (d : datetime) : Prop :=
  1 <= year d <= 9999 /\ 1 <= month d <= 12 /\ 1 <= day d <= 31.

(** *** Text extraction as the specification words it

    The parts that carry a payload, in document order; of these, the ones
    declared [text/plain]; each decoded with its declared character set,
    UTF-8 when none is declared; the decoded texts concatenated and
    trimmed. *)
Module Spec.

Fixpoint parts_in_document_order (m : Message) : list Message :=
  match m with
  | Part _ _ _ => [m]
  | Multipart _ _ subparts => flat_map parts_in_document_order subparts
  end.

Definition is_text_plain (m : Message) : bool :=
  String.eqb (get_content_type m) "text/plain".

(** An empty name declares no character set. *)
Definition declared_charset (m : Message) : option string :=
  match get_content_charset m with
  | Some "" => None
  | cs => cs
  end.

Definition decode_part (lib : PyLib) (m : Message) : Outcome string :=
  match m with
  | Part _ _ payload => bytes_decode lib payload (default "utf-8" (declared_charset m))
  | Multipart _ _ _ => Ok ""
  end.

Definition extract (lib : PyLib) (m : Message) : Outcome string :=
  texts ← mapM (decode_part lib) (List.filter is_text_plain (parts_in_document_order m));
  Ok (strip (String.concat "" texts)).

End Spec.

(** ** Stand-ins for examples

    Concrete instances of the library, of the completion service and of
    the object store, used to run the program on explicit inputs. *)
Module Fixture.

Fixpoint first_non_ascii (payload : list byte) (pos : Z) : option (byte * Z) :=
  match payload with
  | [] => None
  | b :: rest => if is_ascii_byte b then first_non_ascii rest (pos + 1) else Some (b, pos)
  end.

Definition UnicodeDecodeError (b : byte) (pos : Z) : Exn :=
  mkExn "UnicodeDecodeError"
    ("'utf-8' codec can't decode byte 0x"
     ++ String (hex_digit (Z_of_byte b / 16)) (String (hex_digit (Z_of_byte b mod 16)) "")
     ++ " in position " ++ str_of_int pos ++ ": invalid start byte").

(** A byte above the ASCII range that no UTF-8 sequence starts with. *)
Definition cannot_start_utf8 (b : byte) : bool :=
  (Z_of_byte b <? 194) || (244 <? Z_of_byte b).

Definition outside_stand_in : Exn :=
  mkExn "NotImplementedError" "outside the stand-in's domain".

(** [bytes.decode] on the part of its domain the examples need: the codec
    [utf-8], on payloads of ASCII bytes and on payloads whose first other
    byte cannot start a UTF-8 sequence (such as [0xff]). Elsewhere the
    stand-in says so. *)
Definition decode_utf8_ascii (payload : list byte) (encoding : string) : Outcome string :=
  if String.eqb encoding "utf-8" then
    match first_non_ascii payload 0 with
    | None => Ok (string_of_list_byte payload)
    | Some (b, pos) =>
        if cannot_start_utf8 b then Raise (UnicodeDecodeError b pos)
        else Raise outside_stand_in
    end
  else Raise outside_stand_in.

(** A parser that answers from a table of known payloads and reads any
    other payload as a message without headers: one part of the default
    type [text/plain], no character set, the payload as its body. *)
Fixpoint parse_from (table : list (string * Message)) (raw : list byte) : Message :=
  match table with
  | [] => Part "text/plain" None raw
  | (known, m) :: rest =>
      if String.eqb known (string_of_list_byte raw) then m else parse_from rest raw
  end.

(** [repr] on [None], booleans and integers; other values are outside the
    stand-in. *)
Definition repr_scalar (v : PyVal) : string :=
  match v with
  | PNone => "None"
  | PBool true => "True"
  | PBool false => "False"
  | PInt z => str_of_int z
  | _ => "..."
  end.

Definition lib (table : list (string * Message)) : PyLib :=
  {| message_from_bytes := parse_from table;
     bytes_decode := decode_utf8_ascii;
     repr := repr_scalar |}.

(** A two-part message and the message the parser makes of it. *)
Definition two_part_raw : string :=
  "Content-Type: multipart/mixed; boundary=X" ++ newline ++ newline
  ++ "--X" ++ newline ++ "Content-Type: text/plain" ++ newline ++ newline
  ++ "A" ++ newline
  ++ "--X" ++ newline ++ "Content-Type: text/html" ++ newline ++ newline
  ++ "<b>B</b>" ++ newline
  ++ "--X--" ++ newline.

Definition two_part_message : Message :=
  Multipart "multipart/mixed" None
    [Part "text/plain" None (list_byte_of_string "A");
     Part "text/html" None (list_byte_of_string "<b>B</b>")].

Definition two_part_lib : PyLib := lib [(two_part_raw, two_part_message)].

(** A reply of the service: an assistant turn with the given blocks. *)
Definition reply (blocks : list PyVal) : ConverseResponse :=
  {| output := {[ "message" :=
       PDict (<["role" := PStr "assistant"]> (<["content" := PList blocks]> ∅)) ]} |}.

Definition text_block (s : string) : PyVal := PDict {[ "text" := PStr s ]}.

Definition service_down : Exn :=
  mkExn "EndpointConnectionError" "Could not connect to the endpoint URL".

(** A service that answers its calls from a script, and fails after it. *)
Definition scripted (script : list (Outcome ConverseResponse))
    (n : nat) (_ : ConverseRequest) : Outcome ConverseResponse :=
  nth n script (Raise service_down).

Definition world (script : list (Outcome ConverseResponse)) (now : datetime) : World :=
  {| bedrock_converse := scripted script;
     bedrock_calls := 0;
     s3_put_object := fun _ _ _ => None;
     s3_objects := [];
     clock := now;
     console := [] |}.

Definition today : datetime := {| year := 2024; month := 3; day := 7 |}.

End Fixture.

(** ** Vocabulary of the proofs *)

(** The world after one more call to the service, after more console
    lines, after one more accepted put. *)
Definition after_call (w : World) : World :=
  mkWorld (bedrock_converse w) (S (bedrock_calls w)) (s3_put_object w)
    (s3_objects w) (clock w) (console w).

Definition after_log (lines : list ConsoleLine) (w : World) : World :=
  mkWorld (bedrock_converse w) (bedrock_calls w) (s3_put_object w)
    (s3_objects w) (clock w) (console w ++ lines).

Definition error_response (e : Exn) : Response :=
  {| statusCode := 500; body := json_dumps_error (exn_str e) |}.

Definition error_log (e : Exn) : list ConsoleLine :=
  [Printed ("Error in lambda_handler: " ++ exn_str e); Traceback e].

Definition after_put (key content : string) (w : World) : World :=
  mkWorld (bedrock_converse w) (bedrock_calls w) (s3_put_object w)
    (s3_objects w ++ [(bucket_name, key, content)]) (clock w) (console w).

(** Neither stage touches the clock, the object store or the service's
    behaviour. *)
Definition same_store_and_clock (w w' : World) : Prop :=
  clock w' = clock w /\ s3_put_object w' = s3_put_object w
  /\ s3_objects w' = s3_objects w /\ bedrock_converse w' = bedrock_converse w.

Definition quoted (s : string) : string := dquote ++ s ++ dquote.

(** Characters that [json.dumps] writes unchanged. *)
Definition json_plain (c : ascii) : bool :=
  let n := Z.of_nat (nat_of_ascii c) in
  (32 <=? n) && (n <=? 126) && negb (n =? 34) && negb (n =? 92).

(** A numeral of one digit below ten and of two digits from ten on, that
    does not start with [0]. *)
Definition unpadded (n : Z) : bool :=
  Nat.eqb (String.length (str_of_int n)) (if n <? 10 then 1 else 2)
  && match str_of_int n with
     | String c _ => negb (Ascii.eqb c "0")
     | EmptyString => false
     end.

(** The parts declared [text/plain], in document order. *)
Definition plain_parts (m : Message) : list Message :=
  List.filter Spec.is_text_plain (Spec.parts_in_document_order m).

(** Unfolds the monadic plumbing. *)
Ltac run :=
  repeat (progress (unfold mbind, M_bind, mret, M_ret, lift, try_except, on_local,
                    print, print_exc, datetime_now, upload, put_object in *; cbn [fst snd] in * )).

(** ** Bucket provisioning

    [S3BucketManager.__init__] probes the bucket with [head_bucket] and
    creates it when the probe raises [ClientError]. The store is seen
    through the answers it gives to the two operations and the list of
    the calls it received. *)

Inductive S3Call : Type :=
| HeadBucket (Bucket : string)
| CreateBucket (Bucket LocationConstraint : string).

Record S3Service := mkS3Service {
  (** answer to [head_bucket(Bucket=...)]: [None] when it returns *)
  head_bucket_answer : string -> option Exn;
  (** answer to [create_bucket(Bucket=..., CreateBucketConfiguration=...)] *)
  create_bucket_answer : string -> string -> option Exn;
  (** whether an exception is an instance of [botocore]'s [ClientError] *)
  isinstance_ClientError : Exn -> bool;
  (** the calls received, oldest first *)
  s3_calls : list S3Call;
}.

Definition head_bucket (Bucket : string) (s : S3Service) : Outcome unit * S3Service :=
  (match head_bucket_answer s Bucket with Some e => Raise e | None => Ok tt end,
   mkS3Service (head_bucket_answer s) (create_bucket_answer s) (isinstance_ClientError s)
     (s3_calls s ++ [HeadBucket Bucket])).

Definition create_bucket (Bucket LocationConstraint : string) (s : S3Service)
    : Outcome unit * S3Service :=
  (match create_bucket_answer s Bucket LocationConstraint with
   | Some e => Raise e
   | None => Ok tt
   end,
   mkS3Service (head_bucket_answer s) (create_bucket_answer s) (isinstance_ClientError s)
     (s3_calls s ++ [CreateBucket Bucket LocationConstraint])).

Module S3BucketManager.

(** The manager: the name of its bucket (its client is the process-wide
    one). *)
Record t := { bucket_name : string }.

(** [S3BucketManager.__init__] *)
Definition __init__ (bucket_name : string) (s : S3Service) : Outcome t * S3Service :=
  match head_bucket bucket_name s with
  | (Ok _, s1) => (Ok {| bucket_name := bucket_name |}, s1)
  | (Raise e, s1) =>
      if isinstance_ClientError s1 e then
        match create_bucket bucket_name PARAM_REGION s1 with
        | (Ok _, s2) => (Ok {| bucket_name := bucket_name |}, s2)
        | (Raise e', s2) => (Raise e', s2)
        end
      else (Raise e, s1)
  end.

End S3BucketManager.

(** Stand-ins for the store: the only exception class is [ClientError]
    itself; a bucket exists or not; creation is accepted or refused. *)
Module FixtureS3.

Definition is_ClientError (e : Exn) : bool := String.eqb (exn_class e) "ClientError".

Definition not_found : Exn :=
  mkExn "ClientError"
    "An error occurred (404) when calling the HeadBucket operation: Not Found".

Definition no_credentials : Exn :=
  mkExn "NoCredentialsError" "Unable to locate credentials".

Definition service (head : option Exn) (create : option Exn) : S3Service :=
  {| head_bucket_answer := fun _ => head;
     create_bucket_answer := fun _ _ => create;
     isinstance_ClientError := is_ClientError;
     s3_calls := [] |}.

End FixtureS3.

(** ** Further vocabulary *)

(** Whether the handler gets as far as the completion service: the body
    decodes to a payload that is not empty and whose text extraction
    succeeds. *)
Definition reaches_service (lib : PyLib) (event : gmap string PyVal) : bool :=
  match event !! "body" with
  | Some v =>
      match b64decode v with
      | Ok (b :: raw) => is_ok (_extract_text_from_multidata lib (b :: raw))
      | _ => false
      end
  | None => false
  end.

(** A byte that [a2b_base64] does not skip: the pad or a character of the
    alphabet. *)
Definition b64_significant (b : byte) : bool :=
  (Z_of_byte b =? BASE64_PAD) || (table_a2b_base64 (Z_of_byte b) <? 64).

Definition is_str_or_bytes (v : PyVal) : bool :=
  match v with PStr _ | PBytes _ => true | _ => false end.

Definition is_dict (v : PyVal) : bool :=
  match v with PDict _ => true | _ => false end.

Definition starts_with_space (s : string) : bool :=
  match s with String c _ => isspace c | EmptyString => false end.

Fixpoint ends_with_space (s : string) : bool :=
  match s with
  | EmptyString => false
  | String c EmptyString => isspace c
  | String _ s' => ends_with_space s'
  end.

Definition no_slash (s : string) : bool :=
  forallb (fun c => negb (Ascii.eqb c "/")) (list_ascii_of_string s).

(** Printable ASCII: [' '] to ['~']. *)
Definition printable (c : ascii) : bool :=
  let n := Z.of_nat (nat_of_ascii c) in (32 <=? n) && (n <=? 126).

Definition all_printable (s : string) : bool :=
  forallb printable (list_ascii_of_string s).

(** Two worlds whose services answer alike every conversation of one user
    turn, at every call. *)
Definition agree_on_single_turns (w w' : World) : Prop :=
  forall n prompt,
    bedrock_converse w n (converse_request [user_turn prompt])
    = bedrock_converse w' n (converse_request [user_turn prompt]).

(** Two worlds alike in everything but the service. *)
Definition same_but_service (w w' : World) : Prop :=
  bedrock_calls w = bedrock_calls w' /\ s3_put_object w = s3_put_object w'
  /\ s3_objects w = s3_objects w' /\ clock w = clock w' /\ console w = console w'.

(** * Examples *)

Example json_dumps_error_plain :
  json_dumps_error "Transcript content is empty"
  = "{" ++ dquote ++ "error" ++ dquote ++ ": " ++ dquote
    ++ "Transcript content is empty" ++ dquote ++ "}".
Proof. reflexivity. Qed.

Example json_dumps_error_escapes :
  json_dumps_error ("a" ++ dquote ++ "b\c" ++ newline)
  = "{" ++ dquote ++ "error" ++ dquote ++ ": " ++ dquote
    ++ "a\" ++ dquote ++ "b\\c\n" ++ dquote ++ "}".
Proof. reflexivity. Qed.

Example str_of_int_examples :
  str_of_int 2024 = "2024" /\ str_of_int 7 = "7" /\ str_of_int 0 = "0"
  /\ str_of_int (-12) = "-12".
Proof. repeat split; reflexivity. Qed.

Example strip_example :
  strip (" " ++ newline ++ "a b" ++ newline ++ " ") = "a b".
Proof. reflexivity. Qed.

Example b64decode_examples :
  b64decode (PStr "YQ==") = Ok [x61]
  /\ b64decode (PStr "/w==") = Ok [xff]
  /\ b64decode (PStr "") = Ok []
  /\ b64decode (PStr "=") = Ok []
  /\ b64decode (PStr "Y Q = =") = Ok [x61]
  /\ b64decode (PStr "YWJj!!") = Ok [x61; x62; x63]
  /\ b64decode (PStr "abc") = Raise (binascii_Error "Incorrect padding")
  /\ b64decode (PStr "a")
     = Raise (binascii_Error "Invalid base64-encoded string: number of data characters (1) cannot be 1 more than a multiple of 4")
  /\ b64decode (PInt 5)
     = Raise (TypeError "argument should be a bytes-like object or ASCII string, not 'int'").
Proof. repeat split; reflexivity. Qed.

(** A non-multipart message with body [Hello] extracts to [Hello]; an empty
    payload extracts to the empty string. *)
Example extract_single_part :
  _extract_text_from_multidata (Fixture.lib []) (list_byte_of_string "Hello") = Ok "Hello"
  /\ _extract_text_from_multidata (Fixture.lib []) [] = Ok "".
Proof. split; reflexivity. Qed.

(** End to end: the service answers [SUMMARY], then [my-file.txt]; the
    handler answers 200 with the summary and writes it once. *)
Example end_to_end :
  let w := Fixture.world [Ok (Fixture.reply [Fixture.text_block "SUMMARY"]);
                          Ok (Fixture.reply [Fixture.text_block "my-file.txt"])]
             Fixture.today in
  let '(r, w') := lambda_handler (Fixture.lib []) {[ "body" := PStr "SGVsbG8=" ]} w in
  r = Ok {| statusCode := 200; body := "SUMMARY" |}
  /\ s3_objects w' = [(bucket_name, "2024/3/7/my-file.txt", "SUMMARY")]
  /\ console w' = [].
Proof. vm_compute. repeat split. Qed.

(** * Reasoning about computations *)

Lemma every_call_raises_scripted_nil now : every_call_raises (Fixture.world [] now).
Proof. intros n request. exists Fixture.service_down. by destruct n. Qed.

(** The round trip, case by case on the service's answer. *)
Lemma round_trip_raise conversation w e :
  bedrock_converse w (bedrock_calls w) (converse_request conversation) = Raise e ->
  (_get_bedrock_response_and_append conversation w).1 = (Raise e, conversation).
Proof.
  intros He. unfold _get_bedrock_response_and_append, _call_bedrock, converse.
  by rewrite He.
Qed.

Lemma round_trip_no_message conversation w response :
  bedrock_converse w (bedrock_calls w) (converse_request conversation) = Ok response ->
  output_message response = None ->
  (_get_bedrock_response_and_append conversation w).1 = (Raise NoReplyError, conversation).
Proof.
  intros He Hm. unfold _get_bedrock_response_and_append, _call_bedrock, converse.
  by rewrite He, Hm.
Qed.

Lemma round_trip_message conversation w response message :
  bedrock_converse w (bedrock_calls w) (converse_request conversation) = Ok response ->
  output_message response = Some message ->
  (_get_bedrock_response_and_append conversation w).1
  = (Ok message, (conversation ++ [message])%list).
Proof.
  intros He Hm. unfold _get_bedrock_response_and_append, _call_bedrock, converse.
  by rewrite He, Hm.
Qed.

(** The world after a round trip: one more call made, nothing else moved. *)
Lemma round_trip_world conversation w :
  (_get_bedrock_response_and_append conversation w).2
  = mkWorld (bedrock_converse w) (S (bedrock_calls w)) (s3_put_object w)
      (s3_objects w) (clock w) (console w).
Proof.
  unfold _get_bedrock_response_and_append, _call_bedrock, converse.
  destruct (bedrock_converse w _ _) as [response|e]; [|done].
  by destruct (output_message response).
Qed.

Lemma output_message_Some response message :
  output_message response = Some message
  <-> output response !! "message" = Some message /\ message <> PNone.
Proof.
  unfold output_message.
  destruct (output response !! "message") as [[]|]; split;
    try (intros [Hs Hne]); try (intros Hs); simplify_eq; try done.
Qed.

Lemma output_message_None response :
  output_message response = None <-> ~ has_message response.
Proof.
  unfold has_message. split.
  - intros Hn [message Hm]. apply output_message_Some in Hm. congruence.
  - intros Hno. destruct (output_message response) as [message|] eqn:Hm; [|done].
    exfalso. apply Hno. exists message. by apply output_message_Some.
Qed.

(** ** The two stages, case by case *)

Lemma summarize_extraction_fails lib raw w e :
  _extract_text_from_multidata lib raw = Raise e ->
  summarize_meeting_notes lib raw w = (Raise e, w).
Proof. intros Hx. unfold summarize_meeting_notes. run. by rewrite Hx. Qed.

Lemma summarize_service_raises lib raw w text e :
  _extract_text_from_multidata lib raw = Ok text ->
  bedrock_converse w (bedrock_calls w)
    (converse_request [user_turn (summarization_prompt text)]) = Raise e ->
  summarize_meeting_notes lib raw w
  = (Ok SUMMARY_FALLBACK,
     after_log [Printed ("Error during Bedrock call: " ++ exn_str e); Traceback e]
       (after_call w)).
Proof.
  intros Hx He. unfold summarize_meeting_notes. run. rewrite Hx. cbn.
  unfold _get_bedrock_response_and_append, _call_bedrock, converse.
  rewrite He. unfold after_log, after_call. cbn. by rewrite <- app_assoc.
Qed.

Lemma summarize_service_answers lib raw w text response :
  _extract_text_from_multidata lib raw = Ok text ->
  bedrock_converse w (bedrock_calls w)
    (converse_request [user_turn (summarization_prompt text)]) = Ok response ->
  summarize_meeting_notes lib raw w
  = match output_message response with
    | None =>
        (Ok SUMMARY_FALLBACK,
         after_log [Printed ("Error during Bedrock call: " ++ exn_str NoReplyError);
                    Traceback NoReplyError] (after_call w))
    | Some message =>
        match _extract_text lib message with
        | Ok summary => (Ok summary, after_call w)
        | Raise e =>
            (Ok SUMMARY_FALLBACK,
             after_log [Printed ("Error during Bedrock call: " ++ exn_str e); Traceback e]
               (after_call w))
        end
    end.
Proof.
  intros Hx He. unfold summarize_meeting_notes. run. rewrite Hx. cbn.
  unfold _get_bedrock_response_and_append, _call_bedrock, converse.
  rewrite He. unfold after_log, after_call.
  destruct (output_message response) as [message|]; cbn.
  - destruct (_extract_text lib message); cbn; [done|]. by rewrite <- app_assoc.
  - by rewrite <- app_assoc.
Qed.

Lemma infer_service_raises lib notes w e :
  bedrock_converse w (bedrock_calls w)
    (converse_request [user_turn (file_name_prompt notes)]) = Raise e ->
  infer_meeting_notes_file_name lib notes w
  = (Ok FILE_NAME_FALLBACK,
     after_log [Printed ("Error during Bedrock call for file name inference: " ++ exn_str e);
                Traceback e] (after_call w)).
Proof.
  intros He. unfold infer_meeting_notes_file_name. run. cbv zeta. cbn [app].
  unfold _get_bedrock_response_and_append, _call_bedrock, converse.
  rewrite He. unfold after_log, after_call. cbn. by rewrite <- app_assoc.
Qed.

Lemma infer_service_answers lib notes w response :
  bedrock_converse w (bedrock_calls w)
    (converse_request [user_turn (file_name_prompt notes)]) = Ok response ->
  infer_meeting_notes_file_name lib notes w
  = match output_message response with
    | None =>
        (Ok FILE_NAME_FALLBACK,
         after_log [Printed ("Error during Bedrock call for file name inference: "
                             ++ exn_str NoReplyError);
                    Traceback NoReplyError] (after_call w))
    | Some message =>
        match _extract_text lib message with
        | Ok file_name => (Ok file_name, after_call w)
        | Raise e =>
            (Ok FILE_NAME_FALLBACK,
             after_log [Printed ("Error during Bedrock call for file name inference: "
                                 ++ exn_str e); Traceback e] (after_call w))
        end
    end.
Proof.
  intros He. unfold infer_meeting_notes_file_name. run. cbv zeta. cbn [app].
  unfold _get_bedrock_response_and_append, _call_bedrock, converse.
  rewrite He. unfold after_log, after_call.
  destruct (output_message response) as [message|]; cbn.
  - destruct (_extract_text lib message); cbn; [done|]. by rewrite <- app_assoc.
  - by rewrite <- app_assoc.
Qed.

(** File-name inference returns a name in every world. *)
Lemma infer_total lib notes w :
  exists file_name w', infer_meeting_notes_file_name lib notes w = (Ok file_name, w').
Proof.
  destruct (bedrock_converse w (bedrock_calls w)
              (converse_request [user_turn (file_name_prompt notes)])) as [response|e] eqn:He.
  - rewrite (infer_service_answers _ _ _ _ He).
    destruct (output_message response) as [message|]; [|by eauto].
    destruct (_extract_text lib message); by eauto.
  - rewrite (infer_service_raises _ _ _ _ He). by eauto.
Qed.

Lemma summarize_frame lib raw w :
  same_store_and_clock w (summarize_meeting_notes lib raw w).2.
Proof.
  destruct (_extract_text_from_multidata lib raw) as [text|e] eqn:Hx.
  - destruct (bedrock_converse w (bedrock_calls w)
                (converse_request [user_turn (summarization_prompt text)]))
      as [response|e] eqn:He.
    + rewrite (summarize_service_answers _ _ _ _ _ Hx He).
      destruct (output_message response) as [message|]; [|done].
      by destruct (_extract_text lib message).
    + by rewrite (summarize_service_raises _ _ _ _ _ Hx He).
  - by rewrite (summarize_extraction_fails _ _ _ _ Hx).
Qed.

Lemma infer_frame lib notes w :
  same_store_and_clock w (infer_meeting_notes_file_name lib notes w).2.
Proof.
  destruct (bedrock_converse w (bedrock_calls w)
              (converse_request [user_turn (file_name_prompt notes)])) as [response|e] eqn:He.
  - rewrite (infer_service_answers _ _ _ _ He).
    destruct (output_message response) as [message|]; [|done].
    by destruct (_extract_text lib message).
  - by rewrite (infer_service_raises _ _ _ _ He).
Qed.

(** ** The handler, case by case *)

Lemma handler_catches lib event w e w' :
  lambda_handler_try lib event w = (Raise e, w') ->
  lambda_handler lib event w = (Ok (error_response e), after_log (error_log e) w').
Proof.
  intros Ht. unfold lambda_handler. run. rewrite Ht.
  unfold after_log, error_log. cbn. by rewrite <- app_assoc.
Qed.

Lemma handler_returns lib event w r w' :
  lambda_handler_try lib event w = (Ok r, w') ->
  lambda_handler lib event w = (Ok r, w').
Proof. intros Ht. unfold lambda_handler. run. by rewrite Ht. Qed.

Lemma try_missing_body lib event w :
  event !! "body" = None ->
  lambda_handler_try lib event w
  = (Ok {| statusCode := 400;
           body := json_dumps_error "Missing required parameter: body" |}, w).
Proof.
  intros Hb. unfold lambda_handler_try, _validate_input, PARAM_TRANSCRIPT.
  by rewrite Hb.
Qed.

Lemma try_decode_raises lib event w v e :
  event !! "body" = Some v -> b64decode v = Raise e ->
  lambda_handler_try lib event w = (Raise e, w).
Proof.
  intros Hb Hd. unfold lambda_handler_try, _validate_input, getitem, PARAM_TRANSCRIPT.
  rewrite Hb. run. by rewrite Hd.
Qed.

Lemma try_empty_payload lib event w v :
  event !! "body" = Some v -> b64decode v = Ok [] ->
  lambda_handler_try lib event w
  = (Ok {| statusCode := 400; body := json_dumps_error "Transcript content is empty" |}, w).
Proof.
  intros Hb Hd. unfold lambda_handler_try, _validate_input, getitem, PARAM_TRANSCRIPT.
  rewrite Hb. run. by rewrite Hd.
Qed.

Lemma try_summarize_raises lib event w v raw e w1 :
  event !! "body" = Some v -> b64decode v = Ok raw -> raw <> [] ->
  summarize_meeting_notes lib raw w = (Raise e, w1) ->
  lambda_handler_try lib event w = (Raise e, w1).
Proof.
  intros Hb Hd Hne Hs. unfold lambda_handler_try, _validate_input, getitem, PARAM_TRANSCRIPT.
  rewrite Hb. run. rewrite Hd. destruct raw as [|b raw]; [done|]. by rewrite Hs.
Qed.

Lemma try_pipeline lib event w v raw summary w1 file_name w2 :
  event !! "body" = Some v -> b64decode v = Ok raw -> raw <> [] ->
  summarize_meeting_notes lib raw w = (Ok summary, w1) ->
  infer_meeting_notes_file_name lib summary w1 = (Ok file_name, w2) ->
  lambda_handler_try lib event w
  = match s3_put_object w2 bucket_name (s3_key (clock w2) file_name) summary with
    | Some e => (Raise e, w2)
    | None =>
        (Ok {| statusCode := 200; body := summary |},
         after_put (s3_key (clock w2) file_name) summary w2)
    end.
Proof.
  intros Hb Hd Hne Hs Hi.
  unfold lambda_handler_try, _validate_input, getitem, PARAM_TRANSCRIPT.
  rewrite Hb. run. rewrite Hd. destruct raw as [|b raw]; [done|]. rewrite Hs, Hi.
  by destruct (s3_put_object w2 _ _ _).
Qed.

(** * The claims *)

(** ** Fallbacks of the two stages *)

(** C1, as stated, fails: with the completion service down and a payload
    whose only part is not valid UTF-8, [summarize_meeting_notes] raises
    [UnicodeDecodeError] instead of returning its fallback string. The
    extraction runs before the [try] that guards the service call. *)
Lemma summarize_raises_with_service_down :
  every_call_raises (Fixture.world [] Fixture.today)
  /\ (summarize_meeting_notes (Fixture.lib []) [xff] (Fixture.world [] Fixture.today)).1
     = Raise (Fixture.UnicodeDecodeError xff 0)
  /\ (summarize_meeting_notes (Fixture.lib []) [xff] (Fixture.world [] Fixture.today)).1
     <> Ok "An error occurred while summarizing the meeting notes.".
Proof.
  split; [apply every_call_raises_scripted_nil|].
  split; [reflexivity|discriminate].
Qed.

(** C1 (amended): if every call to the completion service raises, then on
    every payload whose text extraction succeeds [summarize_meeting_notes]
    returns exactly its fallback string, and on every input
    [infer_meeting_notes_file_name] returns exactly its fallback name;
    neither raises. *)
Theorem fallbacks_when_service_is_down lib w raw text notes :
  every_call_raises w ->
  _extract_text_from_multidata lib raw = Ok text ->
  (summarize_meeting_notes lib raw w).1
  = Ok "An error occurred while summarizing the meeting notes."
  /\ (infer_meeting_notes_file_name lib notes w).1 = Ok "meeting-notes-summary.txt".
Proof.
  intros Hdown Hx. split.
  - destruct (Hdown (bedrock_calls w)
                (converse_request [user_turn (summarization_prompt text)])) as [e He].
    by rewrite (summarize_service_raises _ _ _ _ _ Hx He).
  - destruct (Hdown (bedrock_calls w)
                (converse_request [user_turn (file_name_prompt notes)])) as [e He].
    by rewrite (infer_service_raises _ _ _ _ He).
Qed.

Lemma fallbacks_when_service_is_down_witness :
  (summarize_meeting_notes (Fixture.lib []) (list_byte_of_string "Hello")
     (Fixture.world [] Fixture.today)).1
  = Ok "An error occurred while summarizing the meeting notes."
  /\ (infer_meeting_notes_file_name (Fixture.lib []) "Budget review"
        (Fixture.world [] Fixture.today)).1 = Ok "meeting-notes-summary.txt".
Proof.
  apply (fallbacks_when_service_is_down (Fixture.lib []) (Fixture.world [] Fixture.today)
           (list_byte_of_string "Hello") "Hello" "Budget review").
  - intros n request. exists Fixture.service_down. destruct n; reflexivity.
  - reflexivity.
Defined.

(** C2, as stated, fails: on a payload whose extraction raises,
    [summarize_meeting_notes] raises too, even when the completion service
    would answer. *)
Lemma summarize_propagates_decoding_error :
  _extract_text_from_multidata (Fixture.lib []) [xff]
  = Raise (Fixture.UnicodeDecodeError xff 0)
  /\ (summarize_meeting_notes (Fixture.lib []) [xff]
        (Fixture.world [Ok (Fixture.reply [Fixture.text_block "SUMMARY"])] Fixture.today)).1
     = Raise (Fixture.UnicodeDecodeError xff 0)
  /\ (summarize_meeting_notes (Fixture.lib []) [xff]
        (Fixture.world [Ok (Fixture.reply [Fixture.text_block "SUMMARY"])] Fixture.today)).1
     <> Ok "An error occurred while summarizing the meeting notes.".
Proof. split; [reflexivity|]. split; [reflexivity|discriminate]. Qed.

(** C2 (amended): on every payload whose text extraction raises,
    [summarize_meeting_notes] raises the same exception to its caller,
    without calling the completion service or logging; [lambda_handler]
    catches it and answers status 500 with the exception's message. *)
Theorem extraction_failure_reaches_handler lib event v raw e w :
  _extract_text_from_multidata lib raw = Raise e ->
  event !! "body" = Some v -> b64decode v = Ok raw -> raw <> [] ->
  summarize_meeting_notes lib raw w = (Raise e, w)
  /\ (lambda_handler lib event w).1
     = Ok {| statusCode := 500; body := json_dumps_error (exn_str e) |}.
Proof.
  intros Hx Hb Hd Hne.
  pose proof (summarize_extraction_fails lib raw w e Hx) as Hs.
  split; [done|].
  by rewrite (handler_catches _ _ _ _ _ (try_summarize_raises _ _ _ _ _ _ _ Hb Hd Hne Hs)).
Qed.

Lemma extraction_failure_reaches_handler_witness :
  summarize_meeting_notes (Fixture.lib []) [xff] (Fixture.world [] Fixture.today)
  = (Raise (Fixture.UnicodeDecodeError xff 0), Fixture.world [] Fixture.today)
  /\ (lambda_handler (Fixture.lib []) {[ "body" := PStr "/w==" ]}
        (Fixture.world [] Fixture.today)).1
     = Ok {| statusCode := 500;
             body := json_dumps_error
                       "'utf-8' codec can't decode byte 0xff in position 0: invalid start byte" |}.
Proof.
  apply (extraction_failure_reaches_handler (Fixture.lib []) {[ "body" := PStr "/w==" ]}
           (PStr "/w==") [xff] (Fixture.UnicodeDecodeError xff 0)).
  - reflexivity.
  - reflexivity.
  - reflexivity.
  - discriminate.
Defined.

(** ** Text extraction *)

Lemma append_nil_r (s : string) : s ++ "" = s.
Proof.
  induction s as [|c s IH]; [done|].
  change (String c (s ++ "") = String c s). by rewrite IH.
Qed.

Lemma append_assoc (s1 s2 s3 : string) : (s1 ++ s2) ++ s3 = s1 ++ (s2 ++ s3).
Proof.
  induction s1 as [|c s1 IH]; [done|].
  change (String c ((s1 ++ s2) ++ s3) = String c (s1 ++ (s2 ++ s3))). by rewrite IH.
Qed.

Lemma concat_cons (s : string) (l : list string) :
  String.concat "" (s :: l) = s ++ String.concat "" l.
Proof. destruct l; cbn; [by rewrite append_nil_r | done]. Qed.

Lemma strip_if_nonempty (text : string) :
  (if str_nonempty text then strip text else "") = strip text.
Proof. by destruct text. Qed.

(** Induction on a message, with the hypothesis for every sub-message. *)
Lemma Message_nested_ind (P : Message -> Prop) :
  (forall ct cs payload, P (Part ct cs payload)) ->
  (forall ct cs subparts, Forall P subparts -> P (Multipart ct cs subparts)) ->
  forall m, P m.
Proof.
  intros Hpart Hmulti. fix IH 1. intros [ct cs payload|ct cs subparts].
  - apply Hpart.
  - apply Hmulti. induction subparts as [|p ps IHps]; constructor; [apply IH|apply IHps].
Qed.

Section Extraction.
Context (lib : PyLib).

Lemma extract_loop_app l1 l2 acc :
  extract_loop lib (l1 ++ l2) acc = (t ← extract_loop lib l1 acc; extract_loop lib l2 t).
Proof.
  revert acc. induction l1 as [|p l1 IH]; intros acc; [done|].
  cbn. destruct (__extract_text_from_part lib p) as [t|e]; cbn; [apply IH|done].
Qed.

Lemma extract_loop_skip p l acc :
  __extract_text_from_part lib p = Ok "" ->
  extract_loop lib (p :: l) acc = extract_loop lib l acc.
Proof. intros Hp. cbn. rewrite Hp. cbn. by rewrite append_nil_r. Qed.

Lemma extract_part_not_plain p :
  Spec.is_text_plain p = false -> __extract_text_from_part lib p = Ok "".
Proof.
  unfold Spec.is_text_plain, __extract_text_from_part. by intros ->.
Qed.

(** On a part declared [text/plain], the code decodes as the
    specification says. *)
Lemma extract_part_plain ct cs payload :
  Spec.is_text_plain (Part ct cs payload) = true ->
  __extract_text_from_part lib (Part ct cs payload)
  = Spec.decode_part lib (Part ct cs payload).
Proof.
  unfold Spec.is_text_plain, __extract_text_from_part, Spec.decode_part,
    Spec.declared_charset. cbn. intros ->.
  by destruct cs as [[|c cs]|].
Qed.

(** Visiting every node of the message, as [walk] does, accumulates what
    visiting the [text/plain] parts alone accumulates. *)
Lemma extract_loop_walk m :
  parser_shaped m = true ->
  forall acc, extract_loop lib (walk m) acc = extract_loop lib (plain_parts m) acc.
Proof.
  induction m as [ct cs payload|ct cs subparts IH] using Message_nested_ind;
    intros Hshape acc.
  - unfold plain_parts. cbn [walk Spec.parts_in_document_order List.filter].
    destruct (Spec.is_text_plain (Part ct cs payload)) eqn:Hplain; [done|].
    by rewrite extract_loop_skip by by apply extract_part_not_plain.
  - cbn [parser_shaped] in Hshape. apply andb_prop in Hshape as [Hct Hsub].
    cbn [walk]. rewrite extract_loop_skip.
    2:{ apply extract_part_not_plain. unfold Spec.is_text_plain. cbn.
        by apply negb_true_iff. }
    unfold plain_parts. cbn [Spec.parts_in_document_order].
    revert acc. induction IH as [|p ps Hp _ IHps]; intros acc; [done|].
    cbn [forallb] in Hsub. apply andb_prop in Hsub as [Hp' Hps'].
    cbn [flat_map]. rewrite List.filter_app, !extract_loop_app.
    rewrite (Hp Hp' acc). fold (plain_parts p).
    destruct (extract_loop lib (plain_parts p) acc) as [t|e]; cbn; [by apply IHps|done].
Qed.

Lemma plain_parts_are_parts m :
  Forall (fun p => exists ct cs payload,
              p = Part ct cs payload /\ Spec.is_text_plain p = true) (plain_parts m).
Proof.
  unfold plain_parts.
  induction m as [ct cs payload|ct cs subparts IH] using Message_nested_ind.
  - cbn [Spec.parts_in_document_order List.filter].
    destruct (Spec.is_text_plain (Part ct cs payload)) eqn:Hplain; [|constructor].
    constructor; [by eauto|constructor].
  - cbn [Spec.parts_in_document_order].
    induction IH as [|p ps Hp _ IHps]; [constructor|].
    cbn [flat_map]. rewrite List.filter_app. apply Forall_app. by split.
Qed.

(** The accumulating loop over [text/plain] parts is the concatenation
    of their decoded texts. *)
Lemma extract_loop_plain l acc :
  Forall (fun p => exists ct cs payload,
              p = Part ct cs payload /\ Spec.is_text_plain p = true) l ->
  extract_loop lib l acc
  = (texts ← mapM (Spec.decode_part lib) l; Ok (acc ++ String.concat "" texts)).
Proof.
  intros Hl. revert acc. induction Hl as [|p l (ct & cs & payload & -> & Hplain) _ IH];
    intros acc.
  - cbn. by rewrite append_nil_r.
  - cbn [extract_loop mapM]. rewrite (extract_part_plain _ _ _ Hplain).
    destruct (Spec.decode_part lib (Part ct cs payload)) as [t|e]; cbn; [|done].
    rewrite IH. destruct (mapM (Spec.decode_part lib) l) as [texts|e];
      cbn -[String.concat]; [|done].
    by rewrite concat_cons, append_assoc.
Qed.

Lemma extract_as_loop multidata :
  _extract_text_from_multidata lib multidata
  = (text ← extract_loop lib (walk (message_from_bytes lib multidata)) "";
     Ok (strip text)).
Proof.
  unfold _extract_text_from_multidata. cbv zeta.
  destruct (message_from_bytes lib multidata) as [ct cs payload|ct cs subparts];
    cbn [is_multipart walk extract_loop].
  - destruct (__extract_text_from_part lib (Part ct cs payload)) as [t|e]; cbn; [|done].
    by rewrite strip_if_nonempty.
  - destruct (__extract_text_from_part lib (Multipart ct cs subparts)) as [t|e]; cbn; [|done].
    destruct (extract_loop lib (flat_map walk subparts) _); cbn; [|done].
    by rewrite strip_if_nonempty.
Qed.

End Extraction.

(** C3: for every payload, parsed by the library into a message of the
    shape its parser produces, [_extract_text_from_multidata] returns what
    the specification describes: the decoded payloads of exactly the parts
    declared [text/plain], in document order through nested multiparts,
    each decoded with its declared character set or UTF-8, concatenated and
    trimmed; other parts contribute nothing; a message that is not
    multipart is treated as its own single part; without any [text/plain]
    part the result is the empty string. A decoding failure is raised by
    both. *)
Theorem extract_meets_specification lib raw :
  parser_shaped (message_from_bytes lib raw) = true ->
  _extract_text_from_multidata lib raw = Spec.extract lib (message_from_bytes lib raw)
  /\ (List.filter Spec.is_text_plain
        (Spec.parts_in_document_order (message_from_bytes lib raw)) = []
      -> _extract_text_from_multidata lib raw = Ok "").
Proof.
  intros Hshape.
  assert (_extract_text_from_multidata lib raw
          = Spec.extract lib (message_from_bytes lib raw)) as Heq.
  { rewrite extract_as_loop, (extract_loop_walk lib _ Hshape).
    rewrite (extract_loop_plain lib _ _ (plain_parts_are_parts _)).
    unfold Spec.extract, plain_parts.
    by destruct (mapM _ _). }
  split; [done|]. intros Hnone. rewrite Heq. unfold Spec.extract. by rewrite Hnone.
Qed.

Lemma extract_meets_specification_witness :
  _extract_text_from_multidata Fixture.two_part_lib
    (list_byte_of_string Fixture.two_part_raw)
  = Spec.extract Fixture.two_part_lib Fixture.two_part_message.
Proof.
  apply (extract_meets_specification Fixture.two_part_lib
           (list_byte_of_string Fixture.two_part_raw)).
  reflexivity.
Defined.

(** A [text/plain] part [A] next to a [text/html] part: only [A] is
    extracted. *)
Example extract_two_parts :
  _extract_text_from_multidata Fixture.two_part_lib
    (list_byte_of_string Fixture.two_part_raw) = Ok "A".
Proof. reflexivity. Qed.

(** ** The round trip and the text of a reply *)

Lemma first_text_skip lib before rest :
  Forall (fun b => ~ carries_text b) before ->
  first_text lib (before ++ rest)%list = first_text lib rest.
Proof.
  induction 1 as [|b before Hb _ IH]; [done|].
  cbn [app first_text]. destruct b as [| | | | | |d]; try done.
  destruct (d !! "text") as [t|] eqn:Ht; [|done].
  exfalso. apply Hb. cbn. by rewrite Ht.
Qed.

Lemma first_text_found lib before d t after :
  Forall (fun b => ~ carries_text b) before ->
  d !! "text" = Some t ->
  first_text lib (before ++ PDict d :: after)%list = py_str lib t.
Proof. intros Hbefore Ht. rewrite first_text_skip by done. cbn. by rewrite Ht. Qed.

Lemma first_text_none lib blocks :
  Forall (fun b => ~ carries_text b) blocks -> first_text lib blocks = "".
Proof.
  intros Hb. rewrite <- (app_nil_r blocks). by rewrite first_text_skip.
Qed.

Lemma extract_text_blocks lib d blocks :
  default (PList []) (d !! "content") = PList blocks ->
  _extract_text lib (PDict d) = Ok (first_text lib blocks).
Proof. intros Hc. unfold _extract_text, get_content. cbn. by rewrite Hc. Qed.

(** C4: when the service answers, the round trip fails with the
    no-reply error exactly when the answer holds no message. When it holds
    one, the round trip returns it, and the text read from it is that of
    the first content block carrying a [text] field, blocks without one
    being skipped, and the empty string when no block carries one. *)
Theorem no_reply_error_iff_no_message lib conversation w response :
  bedrock_converse w (bedrock_calls w) (converse_request conversation) = Ok response ->
  ((_get_bedrock_response_and_append conversation w).1.1 = Raise NoReplyError
   <-> ~ has_message response)
  /\ (forall d blocks,
        output response !! "message" = Some (PDict d) ->
        default (PList []) (d !! "content") = PList blocks ->
        (_get_bedrock_response_and_append conversation w).1.1 = Ok (PDict d)
        /\ (forall before d' t after,
              blocks = (before ++ PDict d' :: after)%list ->
              Forall (fun b => ~ carries_text b) before ->
              d' !! "text" = Some t ->
              _extract_text lib (PDict d) = Ok (py_str lib t))
        /\ (Forall (fun b => ~ carries_text b) blocks ->
            _extract_text lib (PDict d) = Ok "")).
Proof.
  intros He. split.
  - split.
    + intros Hraise Hhas. apply output_message_None in Hhas; [done|].
      destruct (output_message response) as [message|] eqn:Hm; [|done].
      rewrite (round_trip_message _ _ _ _ He Hm) in Hraise. discriminate.
    + intros Hno. apply output_message_None in Hno.
      by rewrite (round_trip_no_message _ _ _ He Hno).
  - intros d blocks Hm Hc.
    assert (output_message response = Some (PDict d)) as Hm'
      by by apply output_message_Some.
    split; [by rewrite (round_trip_message _ _ _ _ He Hm')|].
    rewrite (extract_text_blocks _ _ _ Hc). split.
    + intros before d' t after -> Hbefore Ht. by rewrite (first_text_found _ _ _ t).
    + intros Hnone. by rewrite first_text_none.
Qed.

Lemma no_reply_error_iff_no_message_witness :
  (_get_bedrock_response_and_append [user_turn "notes"]
     (Fixture.world [Ok {| output := ∅ |}] Fixture.today)).1.1 = Raise NoReplyError.
Proof.
  apply (no_reply_error_iff_no_message (Fixture.lib []) [user_turn "notes"]
           (Fixture.world [Ok {| output := ∅ |}] Fixture.today) {| output := ∅ |}).
  - reflexivity.
  - intros [message [Hm _]]. discriminate.
Defined.

(** A reply whose first block is not text: the second block's text is
    read; a reply without any text block reads as the empty string. *)
Example extract_text_skips_other_blocks :
  _extract_text (Fixture.lib [])
    (PDict {[ "content" := PList [PDict {[ "image" := PStr "png" ]}; PInt 3;
                                   Fixture.text_block "first"; Fixture.text_block "second"] ]})
  = Ok "first"
  /\ _extract_text (Fixture.lib [])
       (PDict {[ "content" := PList [PDict {[ "image" := PStr "png" ]}] ]}) = Ok ""
  /\ _extract_text (Fixture.lib []) (PDict ∅) = Ok "".
Proof. repeat split; reflexivity. Qed.

(** C8: whatever its outcome, the round trip leaves the turns already in
    the conversation where they were; when it succeeds it appends exactly
    one turn, the message of the service's reply, at the end; when it
    fails it appends nothing. *)
Theorem round_trip_appends_one_turn conversation w r conversation' w' :
  _get_bedrock_response_and_append conversation w = (r, conversation', w') ->
  (forall i turn, conversation !! i = Some turn -> conversation' !! i = Some turn)
  /\ match r with
     | Ok message =>
         conversation' = (conversation ++ [message])%list
         /\ length conversation' = S (length conversation)
         /\ exists response,
              bedrock_converse w (bedrock_calls w) (converse_request conversation)
              = Ok response
              /\ output response !! "message" = Some message
     | Raise _ => conversation' = conversation
     end.
Proof.
  unfold _get_bedrock_response_and_append, _call_bedrock, converse.
  destruct (bedrock_converse w (bedrock_calls w) (converse_request conversation))
    as [response|e] eqn:He.
  - destruct (output_message response) as [message|] eqn:Hm;
      intros [= <- <- <-]; [|done].
    split; [intros i turn Hi; by apply lookup_app_l_Some|].
    split; [done|]. split; [rewrite length_app; cbn; lia|].
    exists response. split; [done|]. by apply output_message_Some in Hm as [? _].
  - by intros [= <- <- <-].
Qed.

Lemma round_trip_appends_one_turn_witness :
  (forall i turn, [user_turn "notes"] !! i = Some turn ->
     [user_turn "notes"; PDict {[ "role" := PStr "assistant" ]}] !! i = Some turn)
  /\ [user_turn "notes"; PDict {[ "role" := PStr "assistant" ]}]
       = ([user_turn "notes"] ++ [PDict {[ "role" := PStr "assistant" ]}])%list
     /\ length [user_turn "notes"; PDict {[ "role" := PStr "assistant" ]}]
        = S (length [user_turn "notes"])
     /\ exists response,
          bedrock_converse
            (Fixture.world
               [Ok {| output := {[ "message" := PDict {[ "role" := PStr "assistant" ]} ]} |}]
               Fixture.today) 0%nat (converse_request [user_turn "notes"])
          = Ok response
          /\ output response !! "message" = Some (PDict {[ "role" := PStr "assistant" ]}).
Proof.
  apply (round_trip_appends_one_turn [user_turn "notes"]
           (Fixture.world
              [Ok {| output := {[ "message" := PDict {[ "role" := PStr "assistant" ]} ]} |}]
              Fixture.today)
           (Ok (PDict {[ "role" := PStr "assistant" ]}))
           [user_turn "notes"; PDict {[ "role" := PStr "assistant" ]}]
           (after_call
              (Fixture.world
                 [Ok {| output := {[ "message" := PDict {[ "role" := PStr "assistant" ]} ]} |}]
                 Fixture.today))).
  reflexivity.
Defined.

(** ** The handler's responses *)

Lemma json_escape_plain (s : string) :
  forallb json_plain (list_ascii_of_string s) = true -> json_escape s = s.
Proof.
  induction s as [|c s IH]; [done|]. cbn [list_ascii_of_string forallb json_escape].
  intros [Hc Hs]%andb_prop. rewrite (IH Hs).
  assert (json_escape_char c = String c "") as ->; [|done].
  unfold json_plain in Hc. unfold json_escape_char.
  set (n := Z.of_nat (nat_of_ascii c)) in *. cbv zeta in *.
  repeat match goal with
         | |- context [?a =? ?b] => destruct (Z.eqb_spec a b); [lia|]
         end.
  assert ((32 <=? n) && (n <=? 126) = true) as -> by (destruct (n =? 34), (n =? 92); lia).
  done.
Qed.

(** The error envelope of a message without special characters is the
    message between the fixed pieces. *)
Lemma json_dumps_error_plain_message (msg : string) :
  forallb json_plain (list_ascii_of_string msg) = true ->
  json_dumps_error msg = "{" ++ quoted "error" ++ ": " ++ quoted msg ++ "}".
Proof.
  intros Hplain. unfold json_dumps_error, json_string, quoted.
  rewrite (json_escape_plain msg Hplain). by rewrite (json_escape_plain "error").
Qed.

(** The handler answers every event; it never raises. *)
Lemma handler_total lib event w :
  exists r w', lambda_handler lib event w = (Ok r, w').
Proof.
  destruct (lambda_handler_try lib event w) as [[r|e] w'] eqn:Ht.
  - rewrite (handler_returns _ _ _ _ _ Ht). by eauto.
  - rewrite (handler_catches _ _ _ _ _ Ht). by eauto.
Qed.

(** What a payload that decodes to something leads to: 200 or 500. *)
Lemma handler_after_decoding lib event w v raw :
  event !! "body" = Some v -> b64decode v = Ok raw -> raw <> [] ->
  exists r, (lambda_handler lib event w).1 = Ok r
            /\ (statusCode r = 200 \/ statusCode r = 500).
Proof.
  intros Hb Hd Hne.
  destruct (summarize_meeting_notes lib raw w) as [[summary|e] w1] eqn:Hs.
  - destruct (infer_total lib summary w1) as (file_name & w2 & Hi).
    pose proof (try_pipeline _ _ _ _ _ _ _ _ _ Hb Hd Hne Hs Hi) as Ht.
    destruct (s3_put_object w2 bucket_name (s3_key (clock w2) file_name) summary) as [e|].
    + rewrite (handler_catches _ _ _ _ _ Ht). eexists. split; [done|by right].
    + rewrite (handler_returns _ _ _ _ _ Ht). eexists. split; [done|by left].
  - pose proof (try_summarize_raises _ _ _ _ _ _ _ Hb Hd Hne Hs) as Ht.
    rewrite (handler_catches _ _ _ _ _ Ht). eexists. split; [done|by right].
Qed.

(** C5: without the key [body] the handler answers 400 with the
    missing-parameter envelope; when the decoded payload is empty it
    answers 400 with the empty-transcript envelope; when its [try] suite
    raises it answers 500 with the exception's message in the envelope;
    when the pipeline succeeds it answers 200 with the summary itself as
    body. *)
Theorem handler_responses lib event w :
  (event !! "body" = None ->
   (lambda_handler lib event w).1
   = Ok {| statusCode := 400;
           body := "{" ++ quoted "error" ++ ": "
                   ++ quoted "Missing required parameter: body" ++ "}" |})
  /\ (forall v, event !! "body" = Some v -> b64decode v = Ok [] ->
      (lambda_handler lib event w).1
      = Ok {| statusCode := 400;
              body := "{" ++ quoted "error" ++ ": "
                      ++ quoted "Transcript content is empty" ++ "}" |})
  /\ (forall e w', lambda_handler_try lib event w = (Raise e, w') ->
      (lambda_handler lib event w).1
      = Ok {| statusCode := 500; body := json_dumps_error (exn_str e) |})
  /\ (forall v raw summary w1 file_name w2,
        event !! "body" = Some v -> b64decode v = Ok raw -> raw <> [] ->
        summarize_meeting_notes lib raw w = (Ok summary, w1) ->
        infer_meeting_notes_file_name lib summary w1 = (Ok file_name, w2) ->
        s3_put_object w2 bucket_name (s3_key (clock w2) file_name) summary = None ->
        (lambda_handler lib event w).1 = Ok {| statusCode := 200; body := summary |}).
Proof.
  repeat split.
  - intros Hb. by rewrite (handler_returns _ _ _ _ _ (try_missing_body lib _ w Hb)).
  - intros v Hb Hd. by rewrite (handler_returns _ _ _ _ _ (try_empty_payload lib _ w _ Hb Hd)).
  - intros e w' Ht. by rewrite (handler_catches _ _ _ _ _ Ht).
  - intros v raw summary w1 file_name w2 Hb Hd Hne Hs Hi Hput.
    pose proof (try_pipeline _ _ _ _ _ _ _ _ _ Hb Hd Hne Hs Hi) as Ht.
    rewrite Hput in Ht. by rewrite (handler_returns _ _ _ _ _ Ht).
Qed.

Lemma handler_responses_witness :
  (lambda_handler (Fixture.lib []) ∅ (Fixture.world [] Fixture.today)).1
  = Ok {| statusCode := 400;
          body := "{" ++ quoted "error" ++ ": "
                  ++ quoted "Missing required parameter: body" ++ "}" |}
  /\ (lambda_handler (Fixture.lib []) {[ "body" := PStr "" ]}
        (Fixture.world [] Fixture.today)).1
     = Ok {| statusCode := 400;
             body := "{" ++ quoted "error" ++ ": "
                     ++ quoted "Transcript content is empty" ++ "}" |}.
Proof.
  split.
  - apply (handler_responses (Fixture.lib []) ∅ (Fixture.world [] Fixture.today)).
    reflexivity.
  - apply (handler_responses (Fixture.lib []) {[ "body" := PStr "" ]}
             (Fixture.world [] Fixture.today) ) with (v := PStr ""); reflexivity.
Defined.

(** C9: the body [abc] is a non-empty string that is not valid base64;
    decoding it raises, and the handler answers 500 with the decoder's
    message, not 400. A 400 answer is given only for a missing key and for
    a payload that decodes to nothing. *)
Theorem bad_base64_is_a_500 :
  (b64decode (PStr "abc") = Raise (binascii_Error "Incorrect padding")
   /\ forall lib w,
        (lambda_handler lib {[ "body" := PStr "abc" ]} w).1
        = Ok {| statusCode := 500;
                body := "{" ++ quoted "error" ++ ": " ++ quoted "Incorrect padding" ++ "}" |})
  /\ (forall lib event w r,
        (lambda_handler lib event w).1 = Ok r -> statusCode r = 400 ->
        event !! "body" = None
        \/ exists v, event !! "body" = Some v /\ b64decode v = Ok []).
Proof.
  split.
  - split; [reflexivity|]. intros lib w.
    assert (({[ "body" := PStr "abc" ]} : gmap string PyVal) !! "body"
            = Some (PStr "abc")) as Hb by reflexivity.
    assert (b64decode (PStr "abc") = Raise (binascii_Error "Incorrect padding")) as Hd
      by reflexivity.
    by rewrite (handler_catches _ _ _ _ _ (try_decode_raises lib _ w _ _ Hb Hd)).
  - intros lib event w r Hr H400.
    destruct (event !! "body") as [v|] eqn:Hb; [right|by left].
    exists v. split; [done|].
    destruct (b64decode v) as [[|b raw]|e] eqn:Hd; [done| |].
    + destruct (handler_after_decoding lib event w v (b :: raw) Hb Hd) as (r' & Hr' & Hst);
        [done|]. rewrite Hr in Hr'. injection Hr' as <-. lia.
    + rewrite (handler_catches _ _ _ _ _ (try_decode_raises lib _ w _ _ Hb Hd)) in Hr.
      injection Hr as <-. cbn in H400. lia.
Qed.

Lemma bad_base64_is_a_500_witness :
  ({[ "body" := PStr "" ]} : gmap string PyVal) !! "body" = None
  \/ exists v, ({[ "body" := PStr "" ]} : gmap string PyVal) !! "body" = Some v
               /\ b64decode v = Ok [].
Proof.
  apply (proj2 bad_base64_is_a_500 (Fixture.lib []) {[ "body" := PStr "" ]}
           (Fixture.world [] Fixture.today)
           {| statusCode := 400;
              body := json_dumps_error "Transcript content is empty" |}).
  - reflexivity.
  - reflexivity.
Defined.

(** ** The file name and the storage key *)

(** [str(n)] reads back as [n]. *)
Lemma str_of_int_parses (z : Z) :
  option_map Z.of_int (NilZero.int_of_string (str_of_int z)) = Some z.
Proof.
  unfold str_of_int. rewrite NilZero.isi.
  - cbn. by rewrite DecimalZ.of_to.
  - destruct z as [|p|p]; cbn; [discriminate| |discriminate].
    intros [= H]. by apply (DecimalPos.Unsigned.to_uint_nonnil p).
  - destruct z as [|p|p]; cbn; [discriminate|discriminate|].
    intros [= H]. by apply (DecimalPos.Unsigned.to_uint_nonnil p).
Qed.

Lemma unpadded_up_to_31 (n : Z) : 1 <= n <= 31 -> unpadded n = true.
Proof.
  intros Hn.
  assert (forallb unpadded (map Z.of_nat (seq 1 31)) = true) as Hall
    by (vm_compute; reflexivity).
  rewrite forallb_forall in Hall. apply Hall.
  apply in_map_iff. exists (Z.to_nat n). split; [lia|]. apply in_seq. lia.
Qed.

(** C6: the key is the year, the month, the day and the file name joined
    by slashes, each number written in decimal as [str] writes it: it
    reads back as the number, and month and day take one digit below ten
    and two from ten on, never a leading zero. For 2024-03-07 and
    [notes.txt] the key is [2024/3/7/notes.txt]. *)
Theorem s3_key_format now file_name :
  valid_date now ->
  s3_key now file_name
  = str_of_int (year now) ++ "/" ++ str_of_int (month now) ++ "/"
    ++ str_of_int (day now) ++ "/" ++ file_name
  /\ option_map Z.of_int (NilZero.int_of_string (str_of_int (year now))) = Some (year now)
  /\ option_map Z.of_int (NilZero.int_of_string (str_of_int (month now))) = Some (month now)
  /\ option_map Z.of_int (NilZero.int_of_string (str_of_int (day now))) = Some (day now)
  /\ unpadded (month now) = true
  /\ unpadded (day now) = true
  /\ s3_key {| year := 2024; month := 3; day := 7 |} "notes.txt" = "2024/3/7/notes.txt".
Proof.
  intros (Hy & Hm & Hd).
  repeat split; try apply str_of_int_parses; apply unpadded_up_to_31; lia.
Qed.

Lemma s3_key_format_witness :
  s3_key {| year := 2025; month := 11; day := 9 |} "budget-review-summary.txt"
  = "2025/11/9/budget-review-summary.txt".
Proof.
  apply (s3_key_format {| year := 2025; month := 11; day := 9 |} "budget-review-summary.txt").
  unfold valid_date. cbn. lia.
Defined.

(** The whole pipeline, when the store accepts the write. *)
Lemma handler_success lib event w v raw summary w1 file_name w2 :
  event !! "body" = Some v -> b64decode v = Ok raw -> raw <> [] ->
  summarize_meeting_notes lib raw w = (Ok summary, w1) ->
  infer_meeting_notes_file_name lib summary w1 = (Ok file_name, w2) ->
  s3_put_object w bucket_name (s3_key (clock w) file_name) summary = None ->
  lambda_handler lib event w
  = (Ok {| statusCode := 200; body := summary |},
     after_put (s3_key (clock w) file_name) summary w2)
  /\ s3_objects (after_put (s3_key (clock w) file_name) summary w2)
     = (s3_objects w ++ [(bucket_name, s3_key (clock w) file_name, summary)])%list.
Proof.
  intros Hb Hd Hne Hs Hi Hput.
  pose proof (summarize_frame lib raw w) as (Hc1 & Hp1 & Ho1 & _).
  pose proof (infer_frame lib summary w1) as (Hc2 & Hp2 & Ho2 & _).
  rewrite Hs in Hc1, Hp1, Ho1. rewrite Hi in Hc2, Hp2, Ho2. cbn in *.
  pose proof (try_pipeline _ _ _ _ _ _ _ _ _ Hb Hd Hne Hs Hi) as Ht.
  rewrite Hp2, Hp1, Hc2, Hc1, Hput in Ht.
  rewrite (handler_returns _ _ _ _ _ Ht). split; [done|].
  cbn. by rewrite Ho2, Ho1.
Qed.

(** C10: when the reply to the file-name prompt carries a first text block
    [name], whatever string that is, [infer_meeting_notes_file_name]
    returns [name] unchanged, and the handler stores the summary under the
    key made of the date and [name] as it stands. *)
Theorem file_name_is_reply_verbatim
    lib event v raw summary w w1 response d before d' after name :
  event !! "body" = Some v -> b64decode v = Ok raw -> raw <> [] ->
  summarize_meeting_notes lib raw w = (Ok summary, w1) ->
  bedrock_converse w1 (bedrock_calls w1)
    (converse_request [user_turn (file_name_prompt summary)]) = Ok response ->
  output response !! "message" = Some (PDict d) ->
  d !! "content" = Some (PList (before ++ PDict d' :: after)) ->
  Forall (fun b => ~ carries_text b) before ->
  d' !! "text" = Some (PStr name) ->
  s3_put_object w bucket_name (s3_key (clock w) name) summary = None ->
  (infer_meeting_notes_file_name lib summary w1).1 = Ok name
  /\ exists w',
       lambda_handler lib event w = (Ok {| statusCode := 200; body := summary |}, w')
       /\ s3_objects w'
          = (s3_objects w
             ++ [(bucket_name,
                  (str_of_int (year (clock w)) ++ "/" ++ str_of_int (month (clock w))
                   ++ "/" ++ str_of_int (day (clock w)) ++ "/" ++ name)%string,
                  summary)])%list.
Proof.
  intros Hb Hd Hne Hs He Hm Hc Hbefore Ht Hput.
  assert (infer_meeting_notes_file_name lib summary w1 = (Ok name, after_call w1)) as Hi.
  { rewrite (infer_service_answers _ _ _ _ He).
    assert (output_message response = Some (PDict d)) as -> by by apply output_message_Some.
    rewrite (extract_text_blocks lib d (before ++ PDict d' :: after)) by by rewrite Hc.
    by rewrite (first_text_found lib before d' (PStr name) after Hbefore Ht). }
  split; [by rewrite Hi|].
  destruct (handler_success _ _ _ _ _ _ _ _ _ Hb Hd Hne Hs Hi Hput) as [Hh Ho].
  eexists. split; [exact Hh|exact Ho].
Qed.

Lemma file_name_is_reply_verbatim_witness :
  (infer_meeting_notes_file_name (Fixture.lib []) "SUMMARY"
     (after_call
        (Fixture.world [Ok (Fixture.reply [Fixture.text_block "SUMMARY"]);
                        Ok (Fixture.reply [PDict {[ "image" := PStr "png" ]};
                                           Fixture.text_block "Q3 Plan/Final Draft.TXT"])]
           Fixture.today))).1 = Ok "Q3 Plan/Final Draft.TXT"
  /\ exists w',
       lambda_handler (Fixture.lib []) {[ "body" := PStr "SGVsbG8=" ]}
         (Fixture.world [Ok (Fixture.reply [Fixture.text_block "SUMMARY"]);
                         Ok (Fixture.reply [PDict {[ "image" := PStr "png" ]};
                                            Fixture.text_block "Q3 Plan/Final Draft.TXT"])]
            Fixture.today)
       = (Ok {| statusCode := 200; body := "SUMMARY" |}, w')
       /\ s3_objects w'
          = [(bucket_name, "2024/3/7/Q3 Plan/Final Draft.TXT", "SUMMARY")].
Proof.
  apply (file_name_is_reply_verbatim (Fixture.lib []) {[ "body" := PStr "SGVsbG8=" ]}
           (PStr "SGVsbG8=") (list_byte_of_string "Hello") "SUMMARY"
           (Fixture.world [Ok (Fixture.reply [Fixture.text_block "SUMMARY"]);
                           Ok (Fixture.reply [PDict {[ "image" := PStr "png" ]};
                                              Fixture.text_block "Q3 Plan/Final Draft.TXT"])]
              Fixture.today)
           _
           (Fixture.reply [PDict {[ "image" := PStr "png" ]};
                           Fixture.text_block "Q3 Plan/Final Draft.TXT"])
           (<["role" := PStr "assistant"]>
              (<["content" := PList [PDict {[ "image" := PStr "png" ]};
                                     Fixture.text_block "Q3 Plan/Final Draft.TXT"]]> ∅))
           [PDict {[ "image" := PStr "png" ]}]
           {[ "text" := PStr "Q3 Plan/Final Draft.TXT" ]} []
           "Q3 Plan/Final Draft.TXT").
  - reflexivity.
  - reflexivity.
  - discriminate.
  - reflexivity.
  - reflexivity.
  - reflexivity.
  - reflexivity.
  - constructor; [|constructor]. cbn. intros [x Hx]. discriminate.
  - reflexivity.
  - reflexivity.
Defined.

(** ** Purity of the extraction *)

(** C7: extracting from the same bytes gives the same outcome whatever the
    state of the world, leaves the world as it was, and so gives the same
    string (or the same failure) when run twice in a row. *)
Theorem extraction_is_deterministic lib raw w w' :
  lift (_extract_text_from_multidata lib raw) w = (_extract_text_from_multidata lib raw, w)
  /\ (lift (_extract_text_from_multidata lib raw) w).1
     = (lift (_extract_text_from_multidata lib raw) w').1
  /\ (first ← lift (_extract_text_from_multidata lib raw);
      second ← lift (_extract_text_from_multidata lib raw);
      mret (first, second)) w
     = (match _extract_text_from_multidata lib raw with
        | Ok text => Ok (text, text)
        | Raise e => Raise e
        end, w).
Proof.
  repeat split. run. by destruct (_extract_text_from_multidata lib raw).
Qed.

(** * Further properties of the handler *)

Lemma summarize_succeeds lib raw w text :
  _extract_text_from_multidata lib raw = Ok text ->
  exists summary w1,
    summarize_meeting_notes lib raw w = (Ok summary, w1)
    /\ bedrock_calls w1 = S (bedrock_calls w).
Proof.
  intros Hx.
  destruct (bedrock_converse w (bedrock_calls w)
              (converse_request [user_turn (summarization_prompt text)]))
    as [response|e] eqn:He.
  - rewrite (summarize_service_answers _ _ _ _ _ Hx He).
    destruct (output_message response) as [message|]; [|by eauto].
    destruct (_extract_text lib message); by eauto.
  - rewrite (summarize_service_raises _ _ _ _ _ Hx He). by eauto.
Qed.

Lemma infer_calls_once lib notes w :
  bedrock_calls (infer_meeting_notes_file_name lib notes w).2 = S (bedrock_calls w).
Proof.
  destruct (bedrock_converse w (bedrock_calls w)
              (converse_request [user_turn (file_name_prompt notes)])) as [response|e] eqn:He.
  - rewrite (infer_service_answers _ _ _ _ He).
    destruct (output_message response) as [message|]; [|done].
    by destruct (_extract_text lib message).
  - by rewrite (infer_service_raises _ _ _ _ He).
Qed.

(** Once the text is extracted, both stages run and the outcome hangs on
    the store alone. *)
Lemma handler_pipeline lib event w v raw text :
  event !! "body" = Some v -> b64decode v = Ok raw -> raw <> [] ->
  _extract_text_from_multidata lib raw = Ok text ->
  exists summary w1 name w2,
    summarize_meeting_notes lib raw w = (Ok summary, w1)
    /\ infer_meeting_notes_file_name lib summary w1 = (Ok name, w2)
    /\ bedrock_calls w2 = S (S (bedrock_calls w))
    /\ same_store_and_clock w w2
    /\ lambda_handler lib event w
       = match s3_put_object w bucket_name (s3_key (clock w) name) summary with
         | None =>
             (Ok {| statusCode := 200; body := summary |},
              after_put (s3_key (clock w) name) summary w2)
         | Some e => (Ok (error_response e), after_log (error_log e) w2)
         end.
Proof.
  intros Hb Hd Hne Hx.
  destruct (summarize_succeeds lib raw w text Hx) as (summary & w1 & Hs & Hc1).
  destruct (infer_total lib summary w1) as (name & w2 & Hi).
  pose proof (summarize_frame lib raw w) as (Hk1 & Hp1 & Ho1 & Hb1).
  pose proof (infer_frame lib summary w1) as (Hk2 & Hp2 & Ho2 & Hb2).
  pose proof (infer_calls_once lib summary w1) as Hc2.
  rewrite Hs in Hk1, Hp1, Ho1, Hb1. rewrite Hi in Hk2, Hp2, Ho2, Hb2, Hc2. cbn in *.
  exists summary, w1, name, w2. split; [done|]. split; [done|].
  split; [by rewrite Hc2, Hc1|].
  split; [unfold same_store_and_clock; by rewrite Hk2, Hp2, Ho2, Hb2|].
  pose proof (try_pipeline _ _ _ _ _ _ _ _ _ Hb Hd Hne Hs Hi) as Ht.
  rewrite Hp2, Hp1, Hk2, Hk1 in Ht.
  destruct (s3_put_object w bucket_name (s3_key (clock w) name) summary) as [e|].
  - by rewrite (handler_catches _ _ _ _ _ Ht).
  - by rewrite (handler_returns _ _ _ _ _ Ht).
Qed.

(** Where the handler stops before the service. *)
Lemma handler_stops_early lib event w :
  reaches_service lib event = false ->
  exists r,
    (statusCode r = 400 \/ statusCode r = 500)
    /\ (lambda_handler lib event w = (Ok r, w)
        \/ exists e, r = error_response e
                     /\ lambda_handler lib event w = (Ok r, after_log (error_log e) w)).
Proof.
  unfold reaches_service. intros Hr.
  destruct (event !! "body") as [v|] eqn:Hb.
  - destruct (b64decode v) as [[|b raw]|e] eqn:Hd.
    + exists {| statusCode := 400;
                body := json_dumps_error "Transcript content is empty" |}.
      split; [by left|]. left.
      by rewrite (handler_returns _ _ _ _ _ (try_empty_payload lib _ w _ Hb Hd)).
    + destruct (_extract_text_from_multidata lib (b :: raw)) as [text|e] eqn:Hx; [done|].
      exists (error_response e). split; [by right|]. right. exists e. split; [done|].
      apply handler_catches.
      eapply try_summarize_raises; [done|done|done|].
      by apply summarize_extraction_fails.
    + exists (error_response e). split; [by right|]. right. exists e. split; [done|].
      by rewrite (handler_catches _ _ _ _ _ (try_decode_raises lib _ w _ _ Hb Hd)).
  - exists {| statusCode := 400;
              body := json_dumps_error "Missing required parameter: body" |}.
    split; [by left|]. left.
    by rewrite (handler_returns _ _ _ _ _ (try_missing_body lib _ w Hb)).
Qed.

Lemma reaches_service_true lib event :
  reaches_service lib event = true ->
  exists v raw text,
    event !! "body" = Some v /\ b64decode v = Ok raw /\ raw <> []
    /\ _extract_text_from_multidata lib raw = Ok text.
Proof.
  unfold reaches_service. intros Hr.
  destruct (event !! "body") as [v|] eqn:Hb; [|done].
  destruct (b64decode v) as [[|b raw]|e] eqn:Hd; [done| |done].
  destruct (_extract_text_from_multidata lib (b :: raw)) as [text|e] eqn:Hx; [|done].
  exists v, (b :: raw), text. repeat split; done.
Qed.

(** X1: the handler answers every event, in every world, and never
    raises: its answer has status 200, 400 or 500. *)
Theorem handler_status lib event w :
  exists r w',
    lambda_handler lib event w = (Ok r, w')
    /\ (statusCode r = 200 \/ statusCode r = 400 \/ statusCode r = 500).
Proof.
  destruct (reaches_service lib event) eqn:Hr.
  - destruct (reaches_service_true _ _ Hr) as (v & raw & text & Hb & Hd & Hne & Hx).
    destruct (handler_pipeline lib event w v raw text Hb Hd Hne Hx)
      as (summary & w1 & name & w2 & _ & _ & _ & _ & Hh).
    rewrite Hh.
    destruct (s3_put_object w bucket_name (s3_key (clock w) name) summary) as [e|].
    + eexists _, _. split; [done|]. by right; right.
    + eexists _, _. split; [done|]. by left.
  - destruct (handler_stops_early lib event w Hr) as (r & Hst & [Hh|(e & -> & Hh)]);
      rewrite Hh; eexists _, _; (split; [done|]); destruct Hst as [H4|H5]; auto.
Qed.

(** X2: the handler writes to the store exactly when it answers 200, and
    then one object, into the fixed bucket, under a key made of the date
    and a file name, holding the very body it answers with; objects
    written before stay as they were. With any other status the store is
    untouched. *)
Theorem handler_writes_iff_200 lib event w r w' :
  lambda_handler lib event w = (Ok r, w') ->
  (statusCode r = 200
   /\ exists name,
        s3_objects w'
        = (s3_objects w ++ [(bucket_name, s3_key (clock w) name, body r)])%list)
  \/ (statusCode r <> 200 /\ s3_objects w' = s3_objects w).
Proof.
  intros Hh.
  destruct (reaches_service lib event) eqn:Hr.
  - destruct (reaches_service_true _ _ Hr) as (v & raw & text & Hb & Hd & Hne & Hx).
    destruct (handler_pipeline lib event w v raw text Hb Hd Hne Hx)
      as (summary & w1 & name & w2 & _ & _ & _ & (_ & _ & Ho & _) & Hh').
    rewrite Hh' in Hh.
    destruct (s3_put_object w bucket_name (s3_key (clock w) name) summary) as [e|];
      injection Hh as <- <-.
    + right. split; [done|]. cbn. by rewrite Ho.
    + left. split; [done|]. exists name. cbn. by rewrite Ho.
  - destruct (handler_stops_early lib event w Hr) as (r' & Hst & [Hh'|(e & -> & Hh')]);
      rewrite Hh' in Hh; injection Hh as <- <-; right; (split; [lia|done]).
Qed.

Lemma handler_writes_iff_200_witness :
  (statusCode {| statusCode := 200; body := "SUMMARY" |} = 200
   /\ exists name,
        s3_objects
          (lambda_handler (Fixture.lib []) {[ "body" := PStr "SGVsbG8=" ]}
             (Fixture.world [Ok (Fixture.reply [Fixture.text_block "SUMMARY"]);
                             Ok (Fixture.reply [Fixture.text_block "my-file.txt"])]
                Fixture.today)).2
        = (s3_objects
             (Fixture.world [Ok (Fixture.reply [Fixture.text_block "SUMMARY"]);
                             Ok (Fixture.reply [Fixture.text_block "my-file.txt"])]
                Fixture.today)
           ++ [(bucket_name,
                s3_key (clock
                          (Fixture.world [Ok (Fixture.reply [Fixture.text_block "SUMMARY"]);
                                          Ok (Fixture.reply [Fixture.text_block "my-file.txt"])]
                             Fixture.today)) name,
                body {| statusCode := 200; body := "SUMMARY" |})])%list)
  \/ (statusCode {| statusCode := 200; body := "SUMMARY" |} <> 200
      /\ s3_objects
           (lambda_handler (Fixture.lib []) {[ "body" := PStr "SGVsbG8=" ]}
              (Fixture.world [Ok (Fixture.reply [Fixture.text_block "SUMMARY"]);
                              Ok (Fixture.reply [Fixture.text_block "my-file.txt"])]
                 Fixture.today)).2
         = s3_objects
             (Fixture.world [Ok (Fixture.reply [Fixture.text_block "SUMMARY"]);
                             Ok (Fixture.reply [Fixture.text_block "my-file.txt"])]
                Fixture.today)).
Proof.
  apply (handler_writes_iff_200 (Fixture.lib []) {[ "body" := PStr "SGVsbG8=" ]}
           (Fixture.world [Ok (Fixture.reply [Fixture.text_block "SUMMARY"]);
                           Ok (Fixture.reply [Fixture.text_block "my-file.txt"])]
              Fixture.today)).
  reflexivity.
Defined.

(** X3: the handler calls the completion service twice when the body
    decodes to a non-empty payload whose text extraction succeeds, whether
    or not the calls fail, and not at all otherwise. *)
Theorem handler_calls_service_twice_or_never lib event w :
  bedrock_calls (lambda_handler lib event w).2
  = (bedrock_calls w + (if reaches_service lib event then 2 else 0))%nat.
Proof.
  destruct (reaches_service lib event) eqn:Hr.
  - destruct (reaches_service_true _ _ Hr) as (v & raw & text & Hb & Hd & Hne & Hx).
    destruct (handler_pipeline lib event w v raw text Hb Hd Hne Hx)
      as (summary & w1 & name & w2 & _ & _ & Hc & _ & Hh).
    rewrite Hh.
    destruct (s3_put_object w bucket_name (s3_key (clock w) name) summary) as [e|];
      cbn; rewrite Hc; lia.
  - destruct (handler_stops_early lib event w Hr) as (r & _ & [Hh|(e & -> & Hh)]);
      rewrite Hh; cbn; lia.
Qed.

(** X4: the handler reads nothing of the event but its [body] entry. *)
Theorem handler_reads_body_only lib event event' w :
  event !! "body" = event' !! "body" ->
  lambda_handler lib event w = lambda_handler lib event' w.
Proof.
  intros Hb.
  unfold lambda_handler, lambda_handler_try, _validate_input, getitem, PARAM_TRANSCRIPT.
  by rewrite Hb.
Qed.

Lemma handler_reads_body_only_witness :
  lambda_handler (Fixture.lib []) {[ "body" := PStr "SGVsbG8=" ]}
    (Fixture.world [] Fixture.today)
  = lambda_handler (Fixture.lib [])
      (<["isBase64Encoded" := PBool true]> {[ "body" := PStr "SGVsbG8=" ]})
      (Fixture.world [] Fixture.today).
Proof.
  apply (handler_reads_body_only (Fixture.lib []) {[ "body" := PStr "SGVsbG8=" ]}
           (<["isBase64Encoded" := PBool true]> {[ "body" := PStr "SGVsbG8=" ]})).
  reflexivity.
Defined.

Lemma handler_same_decoding lib event event' v v' w :
  event !! "body" = Some v -> event' !! "body" = Some v' ->
  b64decode v = b64decode v' ->
  lambda_handler lib event w = lambda_handler lib event' w.
Proof.
  intros Hb Hb' Hd.
  unfold lambda_handler, lambda_handler_try, _validate_input, getitem, PARAM_TRANSCRIPT.
  rewrite Hb, Hb'. run. by rewrite Hd.
Qed.

(** X5: a [body] that is neither a string nor bytes (a number, [null], a
    list, an object) passes the validation and fails in the decoder: the
    handler answers 500 with the decoder's [TypeError] message, having
    called neither the service nor the store. *)
Theorem non_string_body_is_a_500 lib event v w :
  event !! "body" = Some v -> is_str_or_bytes v = false ->
  lambda_handler lib event w
  = (Ok {| statusCode := 500;
           body := json_dumps_error
                     ("argument should be a bytes-like object or ASCII string, not '"
                      ++ type_name v ++ "'") |},
     after_log
       (error_log (TypeError ("argument should be a bytes-like object or ASCII string, not '"
                              ++ type_name v ++ "'"))) w).
Proof.
  intros Hb Hv.
  assert (b64decode v
          = Raise (TypeError ("argument should be a bytes-like object or ASCII string, not '"
                              ++ type_name v ++ "'"))) as Hd
    by by destruct v.
  by rewrite (handler_catches _ _ _ _ _ (try_decode_raises lib _ w _ _ Hb Hd)).
Qed.

Lemma non_string_body_is_a_500_witness :
  (lambda_handler (Fixture.lib []) {[ "body" := PNone ]} (Fixture.world [] Fixture.today)).1
  = Ok {| statusCode := 500;
          body := json_dumps_error
                    "argument should be a bytes-like object or ASCII string, not 'NoneType'" |}.
Proof.
  rewrite (non_string_body_is_a_500 (Fixture.lib []) {[ "body" := PNone ]} PNone
             (Fixture.world [] Fixture.today)); reflexivity.
Defined.

Lemma a2b_base64_loop_skips data :
  forall quad_pos leftchar pads bin_data,
    a2b_base64_loop (List.filter b64_significant data) quad_pos leftchar pads bin_data
    = a2b_base64_loop data quad_pos leftchar pads bin_data.
Proof.
  induction data as [|ch data IH]; intros quad_pos leftchar pads bin_data; [done|].
  cbn [List.filter]. destruct (b64_significant ch) eqn:Hsig.
  - cbn [a2b_base64_loop]. cbv zeta.
    repeat match goal with
           | |- context [if ?c then _ else _] => destruct c
           end; rewrite ?IH; done.
  - rewrite IH. cbn [a2b_base64_loop]. cbv zeta.
    unfold b64_significant in Hsig. apply orb_false_elim in Hsig as [Hpad Htab].
    rewrite Hpad.
    assert ((64 <=? table_a2b_base64 (Z_of_byte ch)) = true) as -> by lia.
    done.
Qed.

(** X6: the decoder skips every character outside the base64 alphabet, so
    two ASCII bodies that differ only by such characters (line breaks,
    blanks) get the same answer and have the same effects. *)
Theorem handler_skips_characters_outside_base64 lib event event' s s' w :
  event !! "body" = Some (PStr s) -> event' !! "body" = Some (PStr s') ->
  forallb is_ascii_byte (list_byte_of_string s) = true ->
  forallb is_ascii_byte (list_byte_of_string s') = true ->
  List.filter b64_significant (list_byte_of_string s)
  = List.filter b64_significant (list_byte_of_string s') ->
  lambda_handler lib event w = lambda_handler lib event' w.
Proof.
  intros Hb Hb' Ha Ha' Hsame.
  apply (handler_same_decoding lib event event' (PStr s) (PStr s') w Hb Hb').
  unfold b64decode, bytes_from_decode_data. rewrite Ha, Ha'. cbn.
  unfold a2b_base64.
  by rewrite <- (a2b_base64_loop_skips (list_byte_of_string s)),
             <- (a2b_base64_loop_skips (list_byte_of_string s')), Hsame.
Qed.

Lemma handler_skips_characters_outside_base64_witness :
  lambda_handler (Fixture.lib []) {[ "body" := PStr ("SGVs" ++ newline ++ "bG8= ") ]}
    (Fixture.world [] Fixture.today)
  = lambda_handler (Fixture.lib []) {[ "body" := PStr "SGVsbG8=" ]}
      (Fixture.world [] Fixture.today).
Proof.
  apply (handler_skips_characters_outside_base64 (Fixture.lib [])
           {[ "body" := PStr ("SGVs" ++ newline ++ "bG8= ") ]}
           {[ "body" := PStr "SGVsbG8=" ]}
           ("SGVs" ++ newline ++ "bG8= ") "SGVsbG8="); reflexivity.
Defined.

(** X7: with the completion service down, a payload whose text extracts
    still gets status 200: the body is the fallback summary, it is stored
    under the date and the fallback file name, and both failures are
    logged. *)
Theorem service_down_stores_fallback lib event v raw text w :
  event !! "body" = Some v -> b64decode v = Ok raw -> raw <> [] ->
  _extract_text_from_multidata lib raw = Ok text ->
  every_call_raises w ->
  s3_put_object w bucket_name (s3_key (clock w) "meeting-notes-summary.txt")
    "An error occurred while summarizing the meeting notes." = None ->
  exists w' e1 e2,
    lambda_handler lib event w
    = (Ok {| statusCode := 200;
             body := "An error occurred while summarizing the meeting notes." |}, w')
    /\ s3_objects w'
       = (s3_objects w
          ++ [(bucket_name, s3_key (clock w) "meeting-notes-summary.txt",
               "An error occurred while summarizing the meeting notes.")])%list
    /\ console w'
       = (console w
          ++ [Printed ("Error during Bedrock call: " ++ exn_str e1); Traceback e1;
              Printed ("Error during Bedrock call for file name inference: " ++ exn_str e2);
              Traceback e2])%list.
Proof.
  intros Hb Hd Hne Hx Hdown Hput.
  destruct (Hdown (bedrock_calls w)
              (converse_request [user_turn (summarization_prompt text)])) as [e1 He1].
  pose proof (summarize_service_raises _ _ _ _ _ Hx He1) as Hs.
  set (w1 := after_log [Printed ("Error during Bedrock call: " ++ exn_str e1); Traceback e1]
               (after_call w)) in *.
  destruct (Hdown (bedrock_calls w1)
              (converse_request [user_turn (file_name_prompt SUMMARY_FALLBACK)])) as [e2 He2].
  pose proof (infer_service_raises lib SUMMARY_FALLBACK w1 e2 He2) as Hi.
  destruct (handler_success _ _ _ _ _ _ _ _ _ Hb Hd Hne Hs Hi Hput) as [Hh Ho].
  eexists _, e1, e2. split; [exact Hh|]. split; [exact Ho|].
  cbn. by rewrite <- app_assoc.
Qed.

Lemma service_down_stores_fallback_witness :
  exists w' e1 e2,
    lambda_handler (Fixture.lib []) {[ "body" := PStr "SGVsbG8=" ]}
      (Fixture.world [] Fixture.today)
    = (Ok {| statusCode := 200;
             body := "An error occurred while summarizing the meeting notes." |}, w')
    /\ s3_objects w'
       = (s3_objects (Fixture.world [] Fixture.today)
          ++ [(bucket_name,
               s3_key (clock (Fixture.world [] Fixture.today)) "meeting-notes-summary.txt",
               "An error occurred while summarizing the meeting notes.")])%list
    /\ console w'
       = (console (Fixture.world [] Fixture.today)
          ++ [Printed ("Error during Bedrock call: " ++ exn_str e1); Traceback e1;
              Printed ("Error during Bedrock call for file name inference: " ++ exn_str e2);
              Traceback e2])%list.
Proof.
  apply (service_down_stores_fallback (Fixture.lib []) {[ "body" := PStr "SGVsbG8=" ]}
           (PStr "SGVsbG8=") (list_byte_of_string "Hello") "Hello").
  - reflexivity.
  - reflexivity.
  - discriminate.
  - reflexivity.
  - intros n request. exists Fixture.service_down. destruct n; reflexivity.
  - reflexivity.
Defined.

(** X8: a failure of the file-name stage does not lose the summary: when
    the second call raises, or answers without a message, the handler still
    answers 200 with the summary and stores it under the fallback file
    name. *)
Theorem file_name_failure_keeps_summary lib event v raw summary w w1 :
  event !! "body" = Some v -> b64decode v = Ok raw -> raw <> [] ->
  summarize_meeting_notes lib raw w = (Ok summary, w1) ->
  match bedrock_converse w1 (bedrock_calls w1)
          (converse_request [user_turn (file_name_prompt summary)]) with
  | Raise _ => True
  | Ok response => ~ has_message response
  end ->
  s3_put_object w bucket_name (s3_key (clock w) "meeting-notes-summary.txt") summary = None ->
  exists w',
    lambda_handler lib event w = (Ok {| statusCode := 200; body := summary |}, w')
    /\ s3_objects w'
       = (s3_objects w
          ++ [(bucket_name, s3_key (clock w) "meeting-notes-summary.txt", summary)])%list.
Proof.
  intros Hb Hd Hne Hs Hfail Hput.
  assert (exists w2, infer_meeting_notes_file_name lib summary w1
                     = (Ok FILE_NAME_FALLBACK, w2)) as [w2 Hi].
  { destruct (bedrock_converse w1 (bedrock_calls w1)
                (converse_request [user_turn (file_name_prompt summary)]))
      as [response|e] eqn:He.
    - rewrite (infer_service_answers _ _ _ _ He).
      apply output_message_None in Hfail. rewrite Hfail. by eauto.
    - rewrite (infer_service_raises _ _ _ _ He). by eauto. }
  destruct (handler_success _ _ _ _ _ _ _ _ _ Hb Hd Hne Hs Hi Hput) as [Hh Ho].
  eexists. split; [exact Hh|exact Ho].
Qed.

Lemma file_name_failure_keeps_summary_witness :
  exists w',
    lambda_handler (Fixture.lib []) {[ "body" := PStr "SGVsbG8=" ]}
      (Fixture.world [Ok (Fixture.reply [Fixture.text_block "SUMMARY"])] Fixture.today)
    = (Ok {| statusCode := 200; body := "SUMMARY" |}, w')
    /\ s3_objects w'
       = (s3_objects
            (Fixture.world [Ok (Fixture.reply [Fixture.text_block "SUMMARY"])] Fixture.today)
          ++ [(bucket_name,
               s3_key (clock (Fixture.world [Ok (Fixture.reply [Fixture.text_block "SUMMARY"])]
                                Fixture.today)) "meeting-notes-summary.txt",
               "SUMMARY")])%list.
Proof.
  apply (file_name_failure_keeps_summary (Fixture.lib []) {[ "body" := PStr "SGVsbG8=" ]}
           (PStr "SGVsbG8=") (list_byte_of_string "Hello") "SUMMARY"
           (Fixture.world [Ok (Fixture.reply [Fixture.text_block "SUMMARY"])] Fixture.today)
           (after_call
              (Fixture.world [Ok (Fixture.reply [Fixture.text_block "SUMMARY"])]
                 Fixture.today))).
  - reflexivity.
  - reflexivity.
  - discriminate.
  - reflexivity.
  - exact I.
  - reflexivity.
Defined.

(** X9: when the summarization call raises, the handler does not stop:
    it asks for a file name for the fallback text itself, and stores the
    fallback text under the name the service then gives. *)
Theorem failed_summary_is_still_named lib event v raw text w e response message name :
  event !! "body" = Some v -> b64decode v = Ok raw -> raw <> [] ->
  _extract_text_from_multidata lib raw = Ok text ->
  bedrock_converse w (bedrock_calls w)
    (converse_request [user_turn (summarization_prompt text)]) = Raise e ->
  bedrock_converse w (S (bedrock_calls w))
    (converse_request
       [user_turn (file_name_prompt "An error occurred while summarizing the meeting notes.")])
  = Ok response ->
  output_message response = Some message ->
  _extract_text lib message = Ok name ->
  s3_put_object w bucket_name (s3_key (clock w) name)
    "An error occurred while summarizing the meeting notes." = None ->
  exists w',
    lambda_handler lib event w
    = (Ok {| statusCode := 200;
             body := "An error occurred while summarizing the meeting notes." |}, w')
    /\ s3_objects w'
       = (s3_objects w
          ++ [(bucket_name, s3_key (clock w) name,
               "An error occurred while summarizing the meeting notes.")])%list.
Proof.
  intros Hb Hd Hne Hx He1 He2 Hm Hname Hput.
  pose proof (summarize_service_raises _ _ _ _ _ Hx He1) as Hs.
  set (w1 := after_log [Printed ("Error during Bedrock call: " ++ exn_str e); Traceback e]
               (after_call w)) in *.
  assert (infer_meeting_notes_file_name lib SUMMARY_FALLBACK w1 = (Ok name, after_call w1))
    as Hi.
  { rewrite (infer_service_answers lib SUMMARY_FALLBACK w1 response He2).
    by rewrite Hm, Hname. }
  destruct (handler_success _ _ _ _ _ _ _ _ _ Hb Hd Hne Hs Hi Hput) as [Hh Ho].
  eexists. split; [exact Hh|exact Ho].
Qed.

Lemma failed_summary_is_still_named_witness :
  exists w',
    lambda_handler (Fixture.lib []) {[ "body" := PStr "SGVsbG8=" ]}
      (Fixture.world [Raise Fixture.service_down;
                      Ok (Fixture.reply [Fixture.text_block "error-report.txt"])]
         Fixture.today)
    = (Ok {| statusCode := 200;
             body := "An error occurred while summarizing the meeting notes." |}, w')
    /\ s3_objects w'
       = (s3_objects
            (Fixture.world [Raise Fixture.service_down;
                            Ok (Fixture.reply [Fixture.text_block "error-report.txt"])]
               Fixture.today)
          ++ [(bucket_name,
               s3_key (clock (Fixture.world [Raise Fixture.service_down;
                                             Ok (Fixture.reply
                                                   [Fixture.text_block "error-report.txt"])]
                                Fixture.today)) "error-report.txt",
               "An error occurred while summarizing the meeting notes.")])%list.
Proof.
  apply (failed_summary_is_still_named (Fixture.lib []) {[ "body" := PStr "SGVsbG8=" ]}
           (PStr "SGVsbG8=") (list_byte_of_string "Hello") "Hello"
           (Fixture.world [Raise Fixture.service_down;
                           Ok (Fixture.reply [Fixture.text_block "error-report.txt"])]
              Fixture.today)
           Fixture.service_down
           (Fixture.reply [Fixture.text_block "error-report.txt"])
           (PDict (<["role" := PStr "assistant"]>
                     (<["content" := PList [Fixture.text_block "error-report.txt"]]> ∅)))
           "error-report.txt").
  - reflexivity.
  - reflexivity.
  - discriminate.
  - reflexivity.
  - reflexivity.
  - reflexivity.
  - reflexivity.
  - reflexivity.
  - reflexivity.
Defined.

(** X10: when the store refuses the write, the handler answers 500 with
    the store's message; nothing is stored, and both calls to the
    completion service have already been made. *)
Theorem store_failure_is_a_500 lib event v raw text w e :
  event !! "body" = Some v -> b64decode v = Ok raw -> raw <> [] ->
  _extract_text_from_multidata lib raw = Ok text ->
  (forall key content, s3_put_object w bucket_name key content = Some e) ->
  exists w',
    lambda_handler lib event w
    = (Ok {| statusCode := 500; body := json_dumps_error (exn_str e) |}, w')
    /\ s3_objects w' = s3_objects w
    /\ bedrock_calls w' = S (S (bedrock_calls w)).
Proof.
  intros Hb Hd Hne Hx Hrefuse.
  destruct (handler_pipeline lib event w v raw text Hb Hd Hne Hx)
    as (summary & w1 & name & w2 & _ & _ & Hc & (_ & _ & Ho & _) & Hh).
  rewrite Hrefuse in Hh. eexists. split; [exact Hh|]. cbn. by split.
Qed.

Lemma store_failure_is_a_500_witness :
  exists w',
    lambda_handler (Fixture.lib []) {[ "body" := PStr "SGVsbG8=" ]}
      (mkWorld (Fixture.scripted []) 0
         (fun _ _ _ => Some (mkExn "ClientError" "Access Denied")) [] Fixture.today [])
    = (Ok {| statusCode := 500; body := json_dumps_error "Access Denied" |}, w')
    /\ s3_objects w' = []
    /\ bedrock_calls w' = 2%nat.
Proof.
  apply (store_failure_is_a_500 (Fixture.lib []) {[ "body" := PStr "SGVsbG8=" ]}
           (PStr "SGVsbG8=") (list_byte_of_string "Hello") "Hello"
           (mkWorld (Fixture.scripted []) 0
              (fun _ _ _ => Some (mkExn "ClientError" "Access Denied")) [] Fixture.today [])
           (mkExn "ClientError" "Access Denied")).
  - reflexivity.
  - reflexivity.
  - discriminate.
  - reflexivity.
  - reflexivity.
Defined.

(** X11: a reply whose message is not a dictionary is handled like a
    failed call: the summarization stage returns its fallback and logs the
    [AttributeError]. *)
Theorem malformed_reply_gives_fallback lib raw text w response message :
  _extract_text_from_multidata lib raw = Ok text ->
  bedrock_converse w (bedrock_calls w)
    (converse_request [user_turn (summarization_prompt text)]) = Ok response ->
  output response !! "message" = Some message -> message <> PNone ->
  is_dict message = false ->
  (summarize_meeting_notes lib raw w).1
  = Ok "An error occurred while summarizing the meeting notes."
  /\ console (summarize_meeting_notes lib raw w).2
     = (console w
        ++ [Printed ("Error during Bedrock call: '" ++ type_name message
                     ++ "' object has no attribute 'get'");
            Traceback (AttributeError ("'" ++ type_name message
                                       ++ "' object has no attribute 'get'"))])%list.
Proof.
  intros Hx He Hm Hne Hdict.
  rewrite (summarize_service_answers _ _ _ _ _ Hx He).
  assert (output_message response = Some message) as -> by by apply output_message_Some.
  assert (_extract_text lib message
          = Raise (AttributeError ("'" ++ type_name message
                                   ++ "' object has no attribute 'get'"))) as ->
    by by destruct message.
  done.
Qed.

Lemma malformed_reply_gives_fallback_witness :
  (summarize_meeting_notes (Fixture.lib []) (list_byte_of_string "Hello")
     (Fixture.world [Ok {| output := {[ "message" := PStr "plain text" ]} |}]
        Fixture.today)).1
  = Ok "An error occurred while summarizing the meeting notes.".
Proof.
  apply (malformed_reply_gives_fallback (Fixture.lib []) (list_byte_of_string "Hello")
           "Hello"
           (Fixture.world [Ok {| output := {[ "message" := PStr "plain text" ]} |}]
              Fixture.today)
           {| output := {[ "message" := PStr "plain text" ]} |} (PStr "plain text")).
  - reflexivity.
  - reflexivity.
  - reflexivity.
  - discriminate.
  - reflexivity.
Defined.

(** * Further properties of the extraction, the key and the envelope *)

Lemma lstrip_no_leading_space s : starts_with_space (lstrip s) = false.
Proof.
  induction s as [|c s IH]; [done|]. cbn [lstrip].
  destruct (isspace c) eqn:Hc; [done|]. cbn. by rewrite Hc.
Qed.

Lemma rstrip_no_trailing_space s : ends_with_space (rstrip s) = false.
Proof.
  induction s as [|c s IH]; [done|]. cbn [rstrip].
  destruct (rstrip s) as [|c' r].
  - destruct (isspace c) eqn:Hc; [done|]. cbn. by rewrite Hc.
  - exact IH.
Qed.

Lemma rstrip_keeps_first s : starts_with_space s = false -> starts_with_space (rstrip s) = false.
Proof.
  destruct s as [|c s]; [done|]. cbn [starts_with_space rstrip]. intros Hc.
  destruct (rstrip s); [by rewrite Hc|done].
Qed.

Lemma lstrip_fixed s : starts_with_space s = false -> lstrip s = s.
Proof. destruct s as [|c s]; [done|]. cbn. by intros ->. Qed.

Lemma rstrip_fixed s : ends_with_space s = false -> rstrip s = s.
Proof.
  induction s as [|c s IH]; [done|]. intros He. cbn [rstrip].
  destruct s as [|c' s'].
  - cbn in *. by rewrite He.
  - rewrite (IH He). done.
Qed.

(** X12: a text that the extraction returns has no white space at either
    end, so that trimming it again changes nothing. *)
Theorem extracted_text_is_trimmed lib raw text :
  _extract_text_from_multidata lib raw = Ok text ->
  starts_with_space text = false /\ ends_with_space text = false /\ strip text = text.
Proof.
  rewrite extract_as_loop.
  destruct (extract_loop lib (walk (message_from_bytes lib raw)) "") as [t|e]; [|done].
  intros [= <-].
  assert (starts_with_space (strip t) = false) as Hs
    by (apply rstrip_keeps_first, lstrip_no_leading_space).
  assert (ends_with_space (strip t) = false) as He by apply rstrip_no_trailing_space.
  split; [done|]. split; [done|].
  unfold strip at 1. by rewrite (lstrip_fixed _ Hs), (rstrip_fixed _ He).
Qed.

Lemma extracted_text_is_trimmed_witness :
  starts_with_space "Hello" = false /\ ends_with_space "Hello" = false
  /\ strip "Hello" = "Hello".
Proof.
  apply (extracted_text_is_trimmed (Fixture.lib [])
           (list_byte_of_string ("Hello " ++ newline)) "Hello").
  reflexivity.
Defined.

Lemma no_slash_uint d : no_slash (NilEmpty.string_of_uint d) = true.
Proof. induction d; done. Qed.

Lemma no_slash_nilzero d : no_slash (NilZero.string_of_uint d) = true.
Proof. destruct d; try done; apply (no_slash_uint (_ _)). Qed.

Lemma no_slash_str_of_int z : no_slash (str_of_int z) = true.
Proof.
  unfold str_of_int. destruct (Z.to_int z) as [d|d]; cbn [NilZero.string_of_int].
  - apply no_slash_nilzero.
  - pose proof (no_slash_nilzero d) as Hd. unfold no_slash in *.
    cbn [list_ascii_of_string forallb]. by rewrite Hd.
Qed.

Lemma str_of_int_inj z z' : str_of_int z = str_of_int z' -> z = z'.
Proof.
  intros H. pose proof (str_of_int_parses z) as Hz. rewrite H, str_of_int_parses in Hz.
  by injection Hz.
Qed.

(** Two texts cut at their first slash are equal piece by piece. *)
Lemma split_at_slash a a' r r' :
  no_slash a = true -> no_slash a' = true ->
  a ++ "/" ++ r = a' ++ "/" ++ r' -> a = a' /\ r = r'.
Proof.
  revert a'. induction a as [|c a IH]; intros [|c' a'] Ha Ha' H.
  - change (String "/" r = String "/" r') in H. by injection H.
  - change (String "/" r = String c' (a' ++ "/" ++ r')) in H. injection H as <- _.
    by cbn in Ha'.
  - change (String c (a ++ "/" ++ r) = String "/" r') in H. injection H as -> _.
    by cbn in Ha.
  - change (String c (a ++ "/" ++ r) = String c' (a' ++ "/" ++ r')) in H.
    injection H as <- H.
    unfold no_slash in Ha, Ha'. cbn [list_ascii_of_string forallb] in Ha, Ha'.
    apply andb_prop in Ha as [_ Ha]. apply andb_prop in Ha' as [_ Ha'].
    destruct (IH a' Ha Ha' H) as [-> ->]. done.
Qed.

(** X13: the storage key determines the date and the file name it was
    built from: two requests collide on a key only if they agree on the
    year, the month, the day and the file name. *)
Theorem s3_key_injective now now' file_name file_name' :
  s3_key now file_name = s3_key now' file_name' ->
  now = now' /\ file_name = file_name'.
Proof.
  destruct now as [y m d], now' as [y' m' d']. unfold s3_key. cbn [year month day].
  intros H.
  apply split_at_slash in H as [Hy H]; [|apply no_slash_str_of_int..].
  apply split_at_slash in H as [Hm H]; [|apply no_slash_str_of_int..].
  apply split_at_slash in H as [Hd H]; [|apply no_slash_str_of_int..].
  apply str_of_int_inj in Hy, Hm, Hd. by subst.
Qed.

Lemma s3_key_injective_witness :
  {| year := 2024; month := 3; day := 7 |} = {| year := 2024; month := 3; day := 7 |}
  /\ "a/b.txt" = "a/b.txt".
Proof.
  apply (s3_key_injective {| year := 2024; month := 3; day := 7 |}
           {| year := 2024; month := 3; day := 7 |} "a/b.txt" "a/b.txt").
  reflexivity.
Defined.

Lemma list_ascii_of_string_app a b :
  list_ascii_of_string (a ++ b) = (list_ascii_of_string a ++ list_ascii_of_string b)%list.
Proof.
  induction a as [|c a IH]; [done|].
  change (c :: list_ascii_of_string (a ++ b)
          = c :: (list_ascii_of_string a ++ list_ascii_of_string b)%list).
  by rewrite IH.
Qed.

Lemma all_printable_app a b :
  all_printable (a ++ b) = all_printable a && all_printable b.
Proof. unfold all_printable. by rewrite list_ascii_of_string_app, forallb_app. Qed.

Lemma json_escape_char_printable c : all_printable (json_escape_char c) = true.
Proof. destruct c as [[] [] [] [] [] [] [] []]; vm_compute; reflexivity. Qed.

Lemma json_escape_printable s : all_printable (json_escape s) = true.
Proof.
  induction s as [|c s IH]; [done|]. cbn [json_escape].
  by rewrite all_printable_app, json_escape_char_printable, IH.
Qed.

Lemma json_dumps_error_printable msg : all_printable (json_dumps_error msg) = true.
Proof.
  unfold json_dumps_error, json_string.
  rewrite !all_printable_app, !json_escape_printable. done.
Qed.

(** X14: whatever the exception message, the body of every answer other
    than 200 is made of printable ASCII characters only. *)
Theorem error_bodies_are_printable_ascii lib event w r w' :
  lambda_handler lib event w = (Ok r, w') ->
  statusCode r <> 200 ->
  all_printable (body r) = true.
Proof.
  intros Hh Hst.
  destruct (reaches_service lib event) eqn:Hr.
  - destruct (reaches_service_true _ _ Hr) as (v & raw & text & Hb & Hd & Hne & Hx).
    destruct (handler_pipeline lib event w v raw text Hb Hd Hne Hx)
      as (summary & w1 & name & w2 & _ & _ & _ & _ & Hh').
    rewrite Hh' in Hh.
    destruct (s3_put_object w bucket_name (s3_key (clock w) name) summary) as [e|];
      injection Hh as <- <-; [apply json_dumps_error_printable|done].
  - unfold reaches_service in Hr.
    destruct (event !! "body") as [v|] eqn:Hb.
    + destruct (b64decode v) as [[|b raw]|e] eqn:Hd.
      * rewrite (handler_returns _ _ _ _ _ (try_empty_payload lib _ w _ Hb Hd)) in Hh.
        injection Hh as <- <-. apply json_dumps_error_printable.
      * destruct (_extract_text_from_multidata lib (b :: raw)) as [text|e] eqn:Hx; [done|].
        assert (b :: raw <> []) as Hne by done.
        rewrite (handler_catches _ _ _ _ _
                   (try_summarize_raises _ _ _ _ _ _ _ Hb Hd Hne
                      (summarize_extraction_fails lib _ w e Hx))) in Hh.
        injection Hh as <- <-. apply json_dumps_error_printable.
      * rewrite (handler_catches _ _ _ _ _ (try_decode_raises lib _ w _ _ Hb Hd)) in Hh.
        injection Hh as <- <-. apply json_dumps_error_printable.
    + rewrite (handler_returns _ _ _ _ _ (try_missing_body lib _ w Hb)) in Hh.
      injection Hh as <- <-. apply json_dumps_error_printable.
Qed.

Lemma error_bodies_are_printable_ascii_witness :
  all_printable
    (json_dumps_error
       "'utf-8' codec can't decode byte 0xff in position 0: invalid start byte") = true.
Proof.
  apply (error_bodies_are_printable_ascii (Fixture.lib []) {[ "body" := PStr "/w==" ]}
           (Fixture.world [] Fixture.today)
           {| statusCode := 500;
              body := json_dumps_error
                        "'utf-8' codec can't decode byte 0xff in position 0: invalid start byte" |}
           (after_log
              (error_log (Fixture.UnicodeDecodeError xff 0))
              (Fixture.world [] Fixture.today))).
  - reflexivity.
  - discriminate.
Defined.

(** * Bucket provisioning *)

(** X15: the constructor probes the bucket first and asks for its creation
    at most once, in the region [eu-north-1], and only after a probe that
    raised a [ClientError]; it makes no other call. *)
Theorem init_creates_only_after_client_error name s r s' :
  S3BucketManager.__init__ name s = (r, s') ->
  (s3_calls s' = (s3_calls s ++ [HeadBucket name])%list
   /\ (head_bucket_answer s name = None
       \/ exists e, head_bucket_answer s name = Some e
                    /\ isinstance_ClientError s e = false))
  \/ (s3_calls s' = (s3_calls s ++ [HeadBucket name; CreateBucket name "eu-north-1"])%list
      /\ exists e, head_bucket_answer s name = Some e
                   /\ isinstance_ClientError s e = true).
Proof.
  unfold S3BucketManager.__init__, head_bucket, create_bucket.
  destruct (head_bucket_answer s name) as [e|] eqn:Hh; cbn.
  - destruct (isinstance_ClientError s e) eqn:Hc.
    + destruct (create_bucket_answer s name PARAM_REGION); intros [= <- <-];
        right; cbn; rewrite <- app_assoc; eauto.
    + intros [= <- <-]. left. cbn. eauto.
  - intros [= <- <-]. left. cbn. eauto.
Qed.

Lemma init_creates_only_after_client_error_witness :
  (s3_calls (S3BucketManager.__init__ "notes"
               (FixtureS3.service (Some FixtureS3.not_found) None)).2
   = (s3_calls (FixtureS3.service (Some FixtureS3.not_found) None)
      ++ [HeadBucket "notes"])%list
   /\ (head_bucket_answer (FixtureS3.service (Some FixtureS3.not_found) None) "notes" = None
       \/ exists e,
            head_bucket_answer (FixtureS3.service (Some FixtureS3.not_found) None) "notes"
            = Some e
            /\ isinstance_ClientError (FixtureS3.service (Some FixtureS3.not_found) None) e
               = false))
  \/ (s3_calls (S3BucketManager.__init__ "notes"
                  (FixtureS3.service (Some FixtureS3.not_found) None)).2
      = (s3_calls (FixtureS3.service (Some FixtureS3.not_found) None)
         ++ [HeadBucket "notes"; CreateBucket "notes" "eu-north-1"])%list
      /\ exists e,
           head_bucket_answer (FixtureS3.service (Some FixtureS3.not_found) None) "notes"
           = Some e
           /\ isinstance_ClientError (FixtureS3.service (Some FixtureS3.not_found) None) e
              = true).
Proof.
  apply (init_creates_only_after_client_error "notes"
           (FixtureS3.service (Some FixtureS3.not_found) None)
           (S3BucketManager.__init__ "notes"
              (FixtureS3.service (Some FixtureS3.not_found) None)).1).
  reflexivity.
Defined.

(** X16: the constructor succeeds exactly when the probe succeeds, or the
    probe raises a [ClientError] and the creation succeeds; the manager
    then holds the given bucket name. When it fails, the exception is the
    creation's if a creation was attempted, and the probe's otherwise. *)
Theorem init_outcome name s :
  ((exists manager, (S3BucketManager.__init__ name s).1 = Ok manager)
   <-> (head_bucket_answer s name = None
        \/ exists e, head_bucket_answer s name = Some e
                     /\ isinstance_ClientError s e = true
                     /\ create_bucket_answer s name "eu-north-1" = None))
  /\ (forall manager, (S3BucketManager.__init__ name s).1 = Ok manager ->
        S3BucketManager.bucket_name manager = name)
  /\ (forall e, (S3BucketManager.__init__ name s).1 = Raise e ->
        (head_bucket_answer s name = Some e /\ isinstance_ClientError s e = false)
        \/ (create_bucket_answer s name "eu-north-1" = Some e
            /\ exists e0, head_bucket_answer s name = Some e0
                          /\ isinstance_ClientError s e0 = true)).
Proof.
  unfold S3BucketManager.__init__, head_bucket, create_bucket.
  destruct (head_bucket_answer s name) as [e0|] eqn:Hh; cbn.
  - destruct (isinstance_ClientError s e0) eqn:Hc.
    + change PARAM_REGION with "eu-north-1".
      destruct (create_bucket_answer s name "eu-north-1") as [e1|] eqn:Hcreate; cbn.
      * repeat split.
        -- by intros [manager ?].
        -- intros [?|(e & He & _ & ?)]; done.
        -- done.
        -- intros e [= <-]. right. eauto.
      * repeat split.
        -- intros _. right. exists e0. done.
        -- by eauto.
        -- by intros manager [= <-].
        -- done.
    + repeat split.
      * by intros [manager ?].
      * intros [?|(e & [= <-] & He & _)]; [done|congruence].
      * done.
      * intros e [= <-]. by left.
  - repeat split.
    + intros _. by left.
    + by eauto.
    + by intros manager [= <-].
    + done.
Qed.

Lemma init_outcome_witness :
  S3BucketManager.bucket_name {| S3BucketManager.bucket_name := "notes" |} = "notes".
Proof.
  apply (proj1 (proj2 (init_outcome "notes"
                         (FixtureS3.service (Some FixtureS3.not_found) None)))).
  reflexivity.
Defined.

(** A failure of the probe that is not a [ClientError] stops the
    constructor before any creation. *)
Example init_without_credentials :
  S3BucketManager.__init__ "notes" (FixtureS3.service (Some FixtureS3.no_credentials) None)
  = (Raise FixtureS3.no_credentials,
     mkS3Service (fun _ => Some FixtureS3.no_credentials) (fun _ _ => None)
       FixtureS3.is_ClientError [HeadBucket "notes"]).
Proof. reflexivity. Qed.

(** * What the service is asked *)

Lemma same_but_service_after_call w w' :
  same_but_service w w' -> same_but_service (after_call w) (after_call w').
Proof. intros (Hc & Hp & Ho & Hk & Hl). unfold same_but_service. cbn. by rewrite Hc. Qed.

Lemma same_but_service_after_log lines w w' :
  same_but_service w w' -> same_but_service (after_log lines w) (after_log lines w').
Proof. intros (Hc & Hp & Ho & Hk & Hl). unfold same_but_service. cbn. by rewrite Hl. Qed.

Lemma same_but_service_after_put key content w w' :
  same_but_service w w' -> same_but_service (after_put key content w) (after_put key content w').
Proof. intros (Hc & Hp & Ho & Hk & Hl). unfold same_but_service. cbn. by rewrite Ho. Qed.

Lemma summarize_agree lib raw w w' :
  agree_on_single_turns w w' -> same_but_service w w' ->
  (summarize_meeting_notes lib raw w).1 = (summarize_meeting_notes lib raw w').1
  /\ same_but_service (summarize_meeting_notes lib raw w).2
       (summarize_meeting_notes lib raw w').2
  /\ agree_on_single_turns (summarize_meeting_notes lib raw w).2
       (summarize_meeting_notes lib raw w').2.
Proof.
  intros Hagree Hsame.
  destruct (_extract_text_from_multidata lib raw) as [text|e] eqn:Hx.
  - pose proof (Hagree (bedrock_calls w) (summarization_prompt text)) as Heq.
    destruct Hsame as (Hc & Hrest). rewrite Hc in Heq at 2.
    assert (same_but_service w w') as Hsame by done.
    destruct (bedrock_converse w (bedrock_calls w)
                (converse_request [user_turn (summarization_prompt text)]))
      as [response|e] eqn:He; symmetry in Heq.
    + rewrite (summarize_service_answers _ _ _ _ _ Hx He),
              (summarize_service_answers _ _ _ _ _ Hx Heq).
      destruct (output_message response) as [message|].
      * destruct (_extract_text lib message); cbn [fst snd];
          (split; [done|]);
          (split; [by auto using same_but_service_after_call, same_but_service_after_log
                  |exact Hagree]).
      * cbn [fst snd]. split; [done|].
        split; [by auto using same_but_service_after_call, same_but_service_after_log
               |exact Hagree].
    + rewrite (summarize_service_raises _ _ _ _ _ Hx He),
              (summarize_service_raises _ _ _ _ _ Hx Heq).
      cbn [fst snd]. split; [done|].
      split; [by auto using same_but_service_after_call, same_but_service_after_log
             |exact Hagree].
  - by rewrite !(summarize_extraction_fails _ _ _ _ Hx).
Qed.

Lemma infer_agree lib notes w w' :
  agree_on_single_turns w w' -> same_but_service w w' ->
  (infer_meeting_notes_file_name lib notes w).1 = (infer_meeting_notes_file_name lib notes w').1
  /\ same_but_service (infer_meeting_notes_file_name lib notes w).2
       (infer_meeting_notes_file_name lib notes w').2.
Proof.
  intros Hagree Hsame.
  pose proof (Hagree (bedrock_calls w) (file_name_prompt notes)) as Heq.
  destruct Hsame as (Hc & Hrest). rewrite Hc in Heq at 2.
  assert (same_but_service w w') as Hsame by done.
  destruct (bedrock_converse w (bedrock_calls w)
              (converse_request [user_turn (file_name_prompt notes)]))
    as [response|e] eqn:He; symmetry in Heq.
  - rewrite (infer_service_answers _ _ _ _ He), (infer_service_answers _ _ _ _ Heq).
    destruct (output_message response) as [message|].
    + destruct (_extract_text lib message); cbn [fst snd];
        (split; [done|]);
        by auto using same_but_service_after_call, same_but_service_after_log.
    + cbn [fst snd]. split; [done|].
      by auto using same_but_service_after_call, same_but_service_after_log.
  - rewrite (infer_service_raises _ _ _ _ He), (infer_service_raises _ _ _ _ Heq).
    cbn [fst snd]. split; [done|].
    by auto using same_but_service_after_call, same_but_service_after_log.
Qed.

(** X17: each stage sends the service a fresh conversation of one user
    turn, with the fixed model, system text and inference settings; the
    second conversation never carries the first one's turns. Hence two
    worlds whose services agree on such conversations, and are alike
    otherwise, get the same answer from the handler and end alike. *)
Theorem handler_sends_single_turns lib event w w' :
  agree_on_single_turns w w' -> same_but_service w w' ->
  (lambda_handler lib event w).1 = (lambda_handler lib event w').1
  /\ same_but_service (lambda_handler lib event w).2 (lambda_handler lib event w').2.
Proof.
  intros Hagree Hsame.
  destruct (event !! "body") as [v|] eqn:Hb.
  2:{ by rewrite !(handler_returns _ _ _ _ _ (try_missing_body lib _ _ Hb)). }
  destruct (b64decode v) as [[|b raw]|e] eqn:Hd.
  - by rewrite !(handler_returns _ _ _ _ _ (try_empty_payload lib _ _ _ Hb Hd)).
  - assert (b :: raw <> []) as Hne by done.
    destruct (summarize_agree lib (b :: raw) w w' Hagree Hsame) as (Hs1 & Hs2 & Hs3).
    destruct (summarize_meeting_notes lib (b :: raw) w) as [[summary|e] w1] eqn:Hs;
      destruct (summarize_meeting_notes lib (b :: raw) w') as [[summary'|e'] w1'] eqn:Hs';
      cbn [fst snd] in Hs1, Hs2, Hs3; try discriminate; injection Hs1 as <-.
    + destruct (infer_agree lib summary w1 w1' Hs3 Hs2) as (Hi1 & Hi2).
      destruct (infer_total lib summary w1) as (name & w2 & Hi).
      destruct (infer_total lib summary w1') as (name' & w2' & Hi').
      rewrite Hi, Hi' in Hi1, Hi2. cbn [fst snd] in Hi1, Hi2. injection Hi1 as <-.
      pose proof (try_pipeline _ _ _ _ _ _ _ _ _ Hb Hd Hne Hs Hi) as Ht.
      pose proof (try_pipeline _ _ _ _ _ _ _ _ _ Hb Hd Hne Hs' Hi') as Ht'.
      destruct Hi2 as (Hc & Hp & Ho & Hk & Hl).
      rewrite <- Hp, <- Hk in Ht'.
      assert (same_but_service w2 w2') as Hsame2 by done.
      destruct (s3_put_object w2 bucket_name (s3_key (clock w2) name) summary) as [e|].
      * rewrite (handler_catches _ _ _ _ _ Ht), (handler_catches _ _ _ _ _ Ht').
        split; [done|]. by apply same_but_service_after_log.
      * rewrite (handler_returns _ _ _ _ _ Ht), (handler_returns _ _ _ _ _ Ht').
        split; [done|]. by apply same_but_service_after_put.
    + rewrite (handler_catches _ _ _ _ _ (try_summarize_raises _ _ _ _ _ _ _ Hb Hd Hne Hs)),
              (handler_catches _ _ _ _ _ (try_summarize_raises _ _ _ _ _ _ _ Hb Hd Hne Hs')).
      split; [done|]. by apply same_but_service_after_log.
  - rewrite !(handler_catches _ _ _ _ _ (try_decode_raises lib _ _ _ _ Hb Hd)).
    split; [done|]. by apply same_but_service_after_log.
Qed.

Lemma handler_sends_single_turns_witness :
  (lambda_handler (Fixture.lib []) {[ "body" := PStr "SGVsbG8=" ]}
     (Fixture.world [Ok (Fixture.reply [Fixture.text_block "SUMMARY"]);
                     Ok (Fixture.reply [Fixture.text_block "my-file.txt"])] Fixture.today)).1
  = (lambda_handler (Fixture.lib []) {[ "body" := PStr "SGVsbG8=" ]}
       (mkWorld
          (fun n request =>
             match messages request with
             | [_] => Fixture.scripted
                        [Ok (Fixture.reply [Fixture.text_block "SUMMARY"]);
                         Ok (Fixture.reply [Fixture.text_block "my-file.txt"])] n request
             | _ => Ok (Fixture.reply [Fixture.text_block "history.txt"])
             end)
          0 (fun _ _ _ => None) [] Fixture.today [])).1.
Proof.
  apply (handler_sends_single_turns (Fixture.lib []) {[ "body" := PStr "SGVsbG8=" ]}
           (Fixture.world [Ok (Fixture.reply [Fixture.text_block "SUMMARY"]);
                           Ok (Fixture.reply [Fixture.text_block "my-file.txt"])]
              Fixture.today)
           (mkWorld
              (fun n request =>
                 match messages request with
                 | [_] => Fixture.scripted
                            [Ok (Fixture.reply [Fixture.text_block "SUMMARY"]);
                             Ok (Fixture.reply [Fixture.text_block "my-file.txt"])] n request
                 | _ => Ok (Fixture.reply [Fixture.text_block "history.txt"])
                 end)
              0 (fun _ _ _ => None) [] Fixture.today [])).
  - intros n prompt. reflexivity.
  - repeat split.
Defined.

(** X18: whatever the completion service does (raise, answer without a
    message, answer with a malformed one), the file-name stage returns a
    name, and the summarization stage returns a text exactly when the
    extraction succeeded. *)
Theorem stages_absorb_service_failures lib raw notes w :
  (exists name, (infer_meeting_notes_file_name lib notes w).1 = Ok name)
  /\ is_ok (summarize_meeting_notes lib raw w).1
     = is_ok (_extract_text_from_multidata lib raw).
Proof.
  split.
  - destruct (infer_total lib notes w) as (name & w' & Hi). exists name. by rewrite Hi.
  - destruct (_extract_text_from_multidata lib raw) as [text|e] eqn:Hx.
    + destruct (summarize_succeeds lib raw w text Hx) as (summary & w1 & -> & _). done.
    + by rewrite (summarize_extraction_fails _ _ _ _ Hx).
Qed.

Lemma extraction_without_plain_parts lib raw :
  parser_shaped (message_from_bytes lib raw) = true ->
  plain_parts (message_from_bytes lib raw) = [] ->
  _extract_text_from_multidata lib raw = Ok "".
Proof.
  intros Hshape Hnone.
  rewrite extract_as_loop, (extract_loop_walk lib _ Hshape), Hnone. done.
Qed.

(** X19: the emptiness check bears on the payload, not on the text: a
    payload that is not empty but holds no [text/plain] part extracts to
    the empty text, and the handler still asks the service to summarize it,
    with nothing between the two separators. *)
Theorem empty_text_is_still_summarized lib event v raw w response message summary :
  event !! "body" = Some v -> b64decode v = Ok raw -> raw <> [] ->
  parser_shaped (message_from_bytes lib raw) = true ->
  plain_parts (message_from_bytes lib raw) = [] ->
  bedrock_converse w (bedrock_calls w)
    (converse_request
       [user_turn
          ("Please provide a concise summary of the following meeting notes, highlighting key points and action items:"
           ++ newline ++ "###" ++ newline ++ newline ++ "###" ++ newline)]) = Ok response ->
  output_message response = Some message ->
  _extract_text lib message = Ok summary ->
  _extract_text_from_multidata lib raw = Ok ""
  /\ (summarize_meeting_notes lib raw w).1 = Ok summary
  /\ bedrock_calls (lambda_handler lib event w).2 = S (S (bedrock_calls w)).
Proof.
  intros Hb Hd Hne Hshape Hnone He Hm Hsum.
  assert (_extract_text_from_multidata lib raw = Ok "") as Hx
    by by apply extraction_without_plain_parts.
  split; [done|]. split.
  - rewrite (summarize_service_answers lib raw w "" response Hx He). by rewrite Hm, Hsum.
  - destruct (handler_pipeline lib event w v raw "" Hb Hd Hne Hx)
      as (s & w1 & name & w2 & _ & _ & Hc & _ & Hh).
    rewrite Hh. by destruct (s3_put_object w bucket_name (s3_key (clock w) name) s).
Qed.

Lemma empty_text_is_still_summarized_witness :
  _extract_text_from_multidata
    (Fixture.lib [("Content-Type: text/html" ++ newline ++ newline ++ "<b>B</b>",
                   Part "text/html" None (list_byte_of_string "<b>B</b>"))])
    (list_byte_of_string ("Content-Type: text/html" ++ newline ++ newline ++ "<b>B</b>"))
  = Ok ""
  /\ (summarize_meeting_notes
        (Fixture.lib [("Content-Type: text/html" ++ newline ++ newline ++ "<b>B</b>",
                       Part "text/html" None (list_byte_of_string "<b>B</b>"))])
        (list_byte_of_string ("Content-Type: text/html" ++ newline ++ newline ++ "<b>B</b>"))
        (Fixture.world [Ok (Fixture.reply [Fixture.text_block "Nothing to summarize."])]
           Fixture.today)).1 = Ok "Nothing to summarize."
  /\ bedrock_calls
       (lambda_handler
          (Fixture.lib [("Content-Type: text/html" ++ newline ++ newline ++ "<b>B</b>",
                         Part "text/html" None (list_byte_of_string "<b>B</b>"))])
          {[ "body" := PStr "Q29udGVudC1UeXBlOiB0ZXh0L2h0bWwKCjxiPkI8L2I+" ]}
          (Fixture.world [Ok (Fixture.reply [Fixture.text_block "Nothing to summarize."])]
             Fixture.today)).2
     = S (S (bedrock_calls
               (Fixture.world [Ok (Fixture.reply [Fixture.text_block "Nothing to summarize."])]
                  Fixture.today))).
Proof.
  apply (empty_text_is_still_summarized
           (Fixture.lib [("Content-Type: text/html" ++ newline ++ newline ++ "<b>B</b>",
                          Part "text/html" None (list_byte_of_string "<b>B</b>"))])
           {[ "body" := PStr "Q29udGVudC1UeXBlOiB0ZXh0L2h0bWwKCjxiPkI8L2I+" ]}
           (PStr "Q29udGVudC1UeXBlOiB0ZXh0L2h0bWwKCjxiPkI8L2I+")
           (list_byte_of_string ("Content-Type: text/html" ++ newline ++ newline ++ "<b>B</b>"))
           (Fixture.world [Ok (Fixture.reply [Fixture.text_block "Nothing to summarize."])]
              Fixture.today)
           (Fixture.reply [Fixture.text_block "Nothing to summarize."])
           (PDict (<["role" := PStr "assistant"]>
                     (<["content" := PList [Fixture.text_block "Nothing to summarize."]]> ∅)))
           "Nothing to summarize.").
  - reflexivity.
  - reflexivity.
  - discriminate.
  - reflexivity.
  - reflexivity.
  - reflexivity.
  - reflexivity.
  - reflexivity.
Defined.
